(** * Growatt storage sensor table and Songpal configuration flow

    A shallow embedding of

    - [homeassistant/components/growatt_server/sensor_types/storage.py]
      (the tuple [STORAGE_SENSOR_TYPES]), and
    - [homeassistant/components/songpal/config_flow.py] with
      [homeassistant/components/songpal/const.py]
      (the endpoint parser [_urlparse], the configuration flow
      [SongpalConfigFlow] and the options flow [SongpalOptionsFlowHandler]).

    Python dictionaries are finite maps, [None]-able values are options or
    the small value type [pyval], exceptions and early [return]s are the
    outcomes of a state-and-error monad over the flow object.  Calls to
    [_LOGGER.debug] produce no value and change no state; they are left
    out. *)

From Stdlib Require Import String Ascii List Bool Arith Lia.
From stdpp Require Import base option list strings gmap fin_maps.
Import ListNotations.

Local Open Scope string_scope.

(* ===================================================================== *)
(** * Part I: the storage sensor table                                    *)
(* ===================================================================== *)

Module Growatt.

(** Members of the host framework's [SensorDeviceClass] used by the table. *)
Inductive SensorDeviceClass : Type :=
  | ENERGY | POWER | BATTERY | VOLTAGE | CURRENT.

(** The host framework's [SensorStateClass] (the statistics classes). *)
Inductive SensorStateClass : Type :=
  | MEASUREMENT | TOTAL | TOTAL_INCREASING.

#[global] Instance SensorDeviceClass_eq_dec : EqDecision SensorDeviceClass.
Proof. solve_decision. Defined.

#[global] Instance SensorStateClass_eq_dec : EqDecision SensorStateClass.
Proof. solve_decision. Defined.

(** Unit constants of [homeassistant.const] imported by the table. *)
Definition ELECTRIC_CURRENT_AMPERE : string := "A".
Definition ELECTRIC_POTENTIAL_VOLT : string := "V".
Definition ENERGY_KILO_WATT_HOUR : string := "kWh".
Definition FREQUENCY_HERTZ : string := "Hz".
Definition PERCENTAGE : string := "%".
Definition POWER_WATT : string := "W".

(** [GrowattSensorEntityDescription]: the keyword arguments the table uses;
    an argument that is left out keeps its default [None]. *)
Record GrowattSensorEntityDescription : Type := Description {
  key : string;
  name : string;
  api_key : string;
  native_unit_of_measurement : option string;
  device_class : option SensorDeviceClass;
  state_class : option SensorStateClass;
  precision : option nat
}.

Definition STORAGE_SENSOR_TYPES : list GrowattSensorEntityDescription := [
  Description "storage_storage_production_today" "Storage production today"
    "eBatDisChargeToday" (Some ENERGY_KILO_WATT_HOUR) (Some ENERGY) None None;
  Description "storage_storage_production_lifetime" "Lifetime Storage production"
    "eBatDisChargeTotal" (Some ENERGY_KILO_WATT_HOUR) (Some ENERGY) (Some TOTAL) None;
  Description "storage_grid_discharge_today" "Grid discharged today"
    "eacDisChargeToday" (Some ENERGY_KILO_WATT_HOUR) (Some ENERGY) None None;
  Description "storage_load_consumption_today" "Load consumption today"
    "eopDischrToday" (Some ENERGY_KILO_WATT_HOUR) (Some ENERGY) None None;
  Description "storage_load_consumption_lifetime" "Lifetime load consumption"
    "eopDischrTotal" (Some ENERGY_KILO_WATT_HOUR) (Some ENERGY) (Some TOTAL) None;
  Description "storage_grid_charged_today" "Grid charged today"
    "eacChargeToday" (Some ENERGY_KILO_WATT_HOUR) (Some ENERGY) None None;
  Description "storage_charge_storage_lifetime" "Lifetime storaged charged"
    "eChargeTotal" (Some ENERGY_KILO_WATT_HOUR) (Some ENERGY) (Some TOTAL) None;
  Description "storage_solar_production" "Solar power production"
    "ppv" (Some POWER_WATT) (Some POWER) None None;
  Description "storage_battery_percentage" "Battery percentage"
    "capacity" (Some PERCENTAGE) (Some BATTERY) None None;
  Description "storage_power_flow" "Storage charging/ discharging(-ve)"
    "pCharge" (Some POWER_WATT) (Some POWER) None None;
  Description "storage_load_consumption_solar_storage" "Load consumption(Solar + Storage)"
    "rateVA" (Some "VA") None None None;
  Description "storage_charge_today" "Charge today"
    "eChargeToday" (Some ENERGY_KILO_WATT_HOUR) (Some ENERGY) None None;
  Description "storage_import_from_grid" "Import from grid"
    "pAcInPut" (Some POWER_WATT) (Some POWER) None None;
  Description "storage_import_from_grid_today" "Import from grid today"
    "eToUserToday" (Some ENERGY_KILO_WATT_HOUR) (Some ENERGY) None None;
  Description "storage_import_from_grid_total" "Import from grid total"
    "eToUserTotal" (Some ENERGY_KILO_WATT_HOUR) (Some ENERGY) (Some TOTAL) None;
  Description "storage_load_consumption" "Load consumption"
    "outPutPower" (Some POWER_WATT) (Some POWER) None None;
  Description "storage_grid_voltage" "AC input voltage"
    "vGrid" (Some ELECTRIC_POTENTIAL_VOLT) (Some VOLTAGE) None (Some 2);
  Description "storage_pv_charging_voltage" "PV charging voltage"
    "vpv" (Some ELECTRIC_POTENTIAL_VOLT) (Some VOLTAGE) None (Some 2);
  Description "storage_ac_input_frequency_out" "AC input frequency"
    "freqOutPut" (Some FREQUENCY_HERTZ) None None (Some 2);
  Description "storage_output_voltage" "Output voltage"
    "outPutVolt" (Some ELECTRIC_POTENTIAL_VOLT) (Some VOLTAGE) None (Some 2);
  Description "storage_ac_output_frequency" "Ac output frequency"
    "freqGrid" (Some FREQUENCY_HERTZ) None None (Some 2);
  Description "storage_current_PV" "Solar charge current"
    "iAcCharge" (Some ELECTRIC_CURRENT_AMPERE) (Some CURRENT) None (Some 2);
  Description "storage_current_1" "Solar current to storage"
    "iChargePV1" (Some ELECTRIC_CURRENT_AMPERE) (Some CURRENT) None (Some 2);
  Description "storage_grid_amperage_input" "Grid charge current"
    "chgCurr" (Some ELECTRIC_CURRENT_AMPERE) (Some CURRENT) None (Some 2);
  Description "storage_grid_out_current" "Grid out current"
    "outPutCurrent" (Some ELECTRIC_CURRENT_AMPERE) (Some CURRENT) None (Some 2);
  Description "storage_battery_voltage" "Battery voltage"
    "vBat" (Some ELECTRIC_POTENTIAL_VOLT) (Some VOLTAGE) None (Some 2);
  Description "storage_load_percentage" "Load percentage"
    "loadPercent" (Some PERCENTAGE) (Some BATTERY) None (Some 2)
].

(** [ends_with s suf]: Python's [s.endswith(suf)]. *)
Definition ends_with (s suf : string) : bool :=
  String.eqb (String.substring (String.length s - String.length suf)
                               (String.length suf) s) suf
  && Nat.leb (String.length suf) (String.length s).

(** The descriptor's unit is the accumulating energy unit. *)
Definition is_energy (d : GrowattSensorEntityDescription) : bool :=
  bool_decide (native_unit_of_measurement d = Some ENERGY_KILO_WATT_HOUR).

(** What a descriptor represents is read off the telemetry field it maps:
    the vendor's lifetime counters are the fields named [...Total], its
    per-day counters the fields named [...Today]. *)
Definition is_lifetime (d : GrowattSensorEntityDescription) : bool :=
  ends_with (api_key d) "Total".

Definition is_daily (d : GrowattSensorEntityDescription) : bool :=
  ends_with (api_key d) "Today".

(** The same two kinds, read off the descriptor's own [key]. *)
Definition is_lifetime_key (d : GrowattSensorEntityDescription) : bool :=
  ends_with (key d) "_lifetime" || ends_with (key d) "_total".

Definition is_daily_key (d : GrowattSensorEntityDescription) : bool :=
  ends_with (key d) "_today".

(** The check of one descriptor for the rule on energy counters: a kWh
    descriptor maps a lifetime or a daily counter, a lifetime counter has
    the [TOTAL] class and a daily counter has none. *)
Definition energy_rule (d : GrowattSensorEntityDescription) : bool :=
  negb (is_energy d)
  || ((is_lifetime d || is_daily d)
      && (negb (is_lifetime d) || bool_decide (state_class d = Some TOTAL))
      && (negb (is_daily d) || bool_decide (state_class d = None))).

End Growatt.


(* ===================================================================== *)
(** * Part II: Python values, strings and the URL library                 *)
(* ===================================================================== *)

Module Py.

(** The Python values that travel through the forms of the flow. *)
Inductive pyval : Type :=
  | PNone
  | PStr (s : string)
  | PBool (b : bool).

#[global] Instance pyval_eq_dec : EqDecision pyval.
Proof. solve_decision. Defined.

(** Truth value of an object: [None], the empty string and [False] are
    false. *)
Definition truthy (v : pyval) : bool :=
  match v with
  | PNone => false
  | PStr s => negb (String.eqb s "")
  | PBool b => b
  end.

(** [str(v)]. *)
Definition str (v : pyval) : string :=
  match v with
  | PNone => "None"
  | PStr s => s
  | PBool true => "True"
  | PBool false => "False"
  end.

(** [a or b]. *)
Definition or_ (a b : pyval) : pyval := if truthy a then a else b.

(** An [Optional[str]] attribute seen as a value. *)
Definition of_option (o : option string) : pyval :=
  match o with
  | None => PNone
  | Some s => PStr s
  end.

(** [d.get(k)]: the value, or [None] when the key is absent. *)
Definition dict_get (d : gmap string pyval) (k : string) : pyval :=
  default PNone (d !! k).

(** Exceptions that the modelled code can meet. *)
Inductive exn : Type :=
  | AbortFlow (reason : string)
  | SongpalException (msg : string)
  | UnboundLocalError (var : string)
  | KeyError (k : string)
  | ValueError (msg : string).

#[global] Instance exn_eq_dec : EqDecision exn.
Proof. solve_decision. Defined.

(** [s.partition(sep)] for a one-character separator: the text before the
    first [sep], whether [sep] occurs, the text after it. *)
Fixpoint partition (sep : ascii) (s : string) : string * bool * string :=
  match s with
  | EmptyString => (s, false, EmptyString)
  | String c r =>
      if Ascii.eqb c sep then (EmptyString, true, r)
      else let '(a, f, b) := partition sep r in (String c a, f, b)
  end.

(** [s.rpartition(sep)]: the same at the last occurrence; when [sep] does
    not occur the whole text is the third component. *)
Definition rpartition (sep : ascii) (s : string) : string * bool * string :=
  let '(a, f, b) := partition sep (String.rev s) in
  if f then (String.rev b, true, String.rev a)
  else (EmptyString, false, s).

(** [sep in s]. *)
Definition contains (sep : ascii) (s : string) : bool :=
  let '(_, f, _) := partition sep s in f.

(** Splits before the first character that satisfies [p]. *)
Fixpoint break (p : ascii -> bool) (s : string) : string * string :=
  match s with
  | EmptyString => (EmptyString, EmptyString)
  | String c r =>
      if p c then (EmptyString, s)
      else let '(a, b) := break p r in (String c a, b)
  end.

Fixpoint forallb_str (p : ascii -> bool) (s : string) : bool :=
  match s with
  | EmptyString => true
  | String c r => p c && forallb_str p r
  end.

Definition is_upper (c : ascii) : bool :=
  let n := nat_of_ascii c in Nat.leb 65 n && Nat.leb n 90.
Definition is_lower (c : ascii) : bool :=
  let n := nat_of_ascii c in Nat.leb 97 n && Nat.leb n 122.
Definition is_digit (c : ascii) : bool :=
  let n := nat_of_ascii c in Nat.leb 48 n && Nat.leb n 57.

Definition lower_char (c : ascii) : ascii :=
  if is_upper c then ascii_of_nat (nat_of_ascii c + 32) else c.

(** [s.lower()] on ASCII text. *)
Fixpoint lower (s : string) : string :=
  match s with
  | EmptyString => EmptyString
  | String c r => String (lower_char c) (lower r)
  end.

(** [needle in s] for two strings. *)
Fixpoint is_substring (needle s : string) : bool :=
  String.prefix needle s
  || match s with
     | EmptyString => false
     | String _ r => is_substring needle r
     end.

End Py.

Module Urllib.
Import Py.

(** [urllib.parse.ParseResult], a named tuple of six strings. *)
Record ParseResult : Type := mkParseResult {
  scheme : string;
  netloc : string;
  path : string;
  params : string;
  query : string;
  fragment : string
}.

#[global] Instance ParseResult_eq_dec : EqDecision ParseResult.
Proof. solve_decision. Defined.

Inductive field : Type :=
  | f_scheme | f_netloc | f_path | f_params | f_query | f_fragment.

(** [p._replace(f=v)]: named tuples are immutable, so the call builds and
    returns a new tuple and leaves [p] as it was. *)
Definition _replace (p : ParseResult) (f : field) (v : string) : ParseResult :=
  match f with
  | f_scheme => mkParseResult v (netloc p) (path p) (params p) (query p) (fragment p)
  | f_netloc => mkParseResult (scheme p) v (path p) (params p) (query p) (fragment p)
  | f_path => mkParseResult (scheme p) (netloc p) v (params p) (query p) (fragment p)
  | f_params => mkParseResult (scheme p) (netloc p) (path p) v (query p) (fragment p)
  | f_query => mkParseResult (scheme p) (netloc p) (path p) (params p) v (fragment p)
  | f_fragment => mkParseResult (scheme p) (netloc p) (path p) (params p) (query p) v
  end.

(** ** The standard library's parser

    A model of [urllib.parse] of the interpreter the integration runs on
    (CPython 3.9 and 3.10), for endpoints of ASCII characters.  The flow is
    verified for any parser (see [World] below); this one serves to run
    the flow on concrete endpoints. *)

Definition uses_netloc : list string :=
  [""; "ftp"; "http"; "gopher"; "nntp"; "telnet"; "imap"; "wais"; "file";
   "mms"; "https"; "shttp"; "snews"; "prospero"; "rtsp"; "rtspu"; "rsync";
   "svn"; "svn+ssh"; "sftp"; "nfs"; "git"; "git+ssh"; "ws"; "wss"].

Definition uses_params : list string :=
  [""; "ftp"; "hdl"; "prospero"; "http"; "imap"; "https"; "shttp"; "rtsp";
   "rtspu"; "sip"; "sips"; "mms"; "sftp"; "tel"].

Definition scheme_char (c : ascii) : bool :=
  is_lower c || is_upper c || is_digit c
  || Ascii.eqb c "+" || Ascii.eqb c "-" || Ascii.eqb c ".".

Definition unsafe_byte (c : ascii) : bool :=
  Ascii.eqb c "009" || Ascii.eqb c "013" || Ascii.eqb c "010".

Fixpoint remove_unsafe (s : string) : string :=
  match s with
  | EmptyString => EmptyString
  | String c r => if unsafe_byte c then remove_unsafe r
                  else String c (remove_unsafe r)
  end.

Definition starts_with_slashes (url : string) : bool := String.prefix "//" url.

(** [_splitnetloc(url, 2)] on a text that starts with two slashes. *)
Definition _splitnetloc (url : string) : string * string :=
  break (fun c => Ascii.eqb c "/" || Ascii.eqb c "?" || Ascii.eqb c "#")
        (String.substring 2 (String.length url - 2) url).

(** [urlsplit(url)]: scheme, netloc, path, query, fragment. *)
Definition urlsplit (url : string)
  : exn + (string * string * string * string * string) :=
  let url := remove_unsafe url in
  let '(scheme, url) :=
    let '(head, found, rest) := partition ":" url in
    if found && negb (String.eqb head "") && forallb_str scheme_char head
    then (lower head, rest) else ("", url) in
  let '(netloc, url) :=
    if starts_with_slashes url then _splitnetloc url else ("", url) in
  if xorb (contains "[" netloc) (contains "]" netloc)
  then inl (ValueError "Invalid IPv6 URL")
  else
    let '(url, fragment) :=
      let '(a, _, b) := partition "#" url in (a, b) in
    let '(url, query) :=
      let '(a, _, b) := partition "?" url in (a, b) in
    inr (scheme, netloc, url, query, fragment).

Definition _splitparams (url : string) : string * string :=
  if contains "/" url then
    let '(dir, _, last) := rpartition "/" url in
    let '(a, found, b) := partition ";" last in
    if found then (dir ++ "/" ++ a, b) else (url, "")
  else
    let '(a, _, b) := partition ";" url in (a, b).

(** [urllib.parse.urlparse(url)]. *)
Definition urlparse (url : string) : exn + ParseResult :=
  match urlsplit url with
  | inl e => inl e
  | inr (scheme, netloc, url, query, fragment) =>
      let '(url, params) :=
        if bool_decide (scheme ∈ uses_params) && contains ";" url
        then _splitparams url else (url, "") in
      inr (mkParseResult scheme netloc url params query fragment)
  end.

(** [p.geturl()], that is [urlunparse(p)]. *)
Definition geturl (p : ParseResult) : string :=
  let url := if String.eqb (params p) "" then path p
             else path p ++ ";" ++ params p in
  let url :=
    if negb (String.eqb (netloc p) "")
       || (negb (String.eqb (scheme p) "")
           && bool_decide (scheme p ∈ uses_netloc)
           && negb (String.prefix "//" url))
    then
      let url := if negb (String.eqb url "") && negb (String.prefix "/" url)
                 then "/" ++ url else url in
      "//" ++ netloc p ++ url
    else url in
  let url := if String.eqb (scheme p) "" then url else scheme p ++ ":" ++ url in
  let url := if String.eqb (query p) "" then url else url ++ "?" ++ query p in
  if String.eqb (fragment p) "" then url else url ++ "#" ++ fragment p.

(** [p.hostname]. *)
Definition hostname (p : ParseResult) : option string :=
  let '(_, _, hostinfo) := rpartition "@" (netloc p) in
  let '(_, have_open_br, bracketed) := partition "[" hostinfo in
  let host :=
    if have_open_br then let '(h, _, _) := partition "]" bracketed in h
    else let '(h, _, _) := partition ":" hostinfo in h in
  if String.eqb host "" then None
  else
    let '(h, percent, zone) := partition "%" host in
    Some (lower h ++ (if percent then "%" else "") ++ zone).

End Urllib.


(* ===================================================================== *)
(** * Part III: steps of a flow as a state-and-error monad                *)
(* ===================================================================== *)

Module Flow.
Import Py.

(** A voluptuous schema: the marked keys with their validators. *)
Inductive validator : Type :=
  | v_str
  | v_bool
  | v_In (allowed : list string).

Record marker : Type := mkMarker {
  m_required : bool;
  m_key : string;
  m_default : option pyval;
  m_suggested_value : option pyval
}.

Definition Required (k : string) : marker := mkMarker true k None None.
Definition Optional (k : string) (default : pyval) : marker :=
  mkMarker false k (Some default) None.

Definition Schema : Type := list (marker * validator).

(** Modelled from the spec: the framework-defined result of a step, of
    which the sources have the calls that build it only (section 6: "a
    framework-defined form/abort/create-entry result"), with the keyword
    arguments the flows pass; an argument that is left out is [None]. *)
Inductive FlowResult : Type :=
  | Form (step_id : string) (data_schema : option Schema)
         (errors : option (gmap string string))
         (description_placeholders : option (gmap string pyval))
  | Abort (reason : string)
  | CreateEntry (title : string) (data : gmap string pyval).

Definition async_show_form := Form.
Definition async_abort := Abort.
Definition async_create_entry := CreateEntry.

(** How a piece of a function body ends: with a value, with a [return]
    statement, or with an exception. *)
Inductive outcome (A : Type) : Type :=
  | Val (a : A)
  | Return (r : FlowResult)
  | Raise (e : exn).
Arguments Val {A} a.
Arguments Return {A} r.
Arguments Raise {A} e.

Section Monad.
Context {Self : Type}.

Definition M (A : Type) : Type := Self -> Self * outcome A.

Definition ret {A} (a : A) : M A := fun self => (self, Val a).

Definition bind {A B} (m : M A) (k : A -> M B) : M B :=
  fun self =>
    match m self with
    | (self', Val a) => k a self'
    | (self', Return r) => (self', Return r)
    | (self', Raise e) => (self', Raise e)
    end.

Definition return_ {A} (r : FlowResult) : M A := fun self => (self, Return r).
Definition raise {A} (e : exn) : M A := fun self => (self, Raise e).
Definition get : M Self := fun self => (self, Val self).
Definition put (self' : Self) : M unit := fun _ => (self', Val tt).

(** A library call that returns or raises. *)
Definition lift {A} (r : exn + A) : M A :=
  match r with
  | inl e => raise e
  | inr a => ret a
  end.

(** [d[k]]. *)
Definition dict_item (d : gmap string pyval) (k : string) : M pyval :=
  match d !! k with
  | Some v => ret v
  | None => raise (KeyError k)
  end.

(** Reading a local variable that some paths leave unassigned. *)
Definition read_local {A} (var : string) (v : option A) : M A :=
  match v with
  | Some a => ret a
  | None => raise (UnboundLocalError var)
  end.

(** [try: body / except ...: handler]: the handler chooses the
    exceptions it catches. *)
Definition try_except {A} (body : M A) (handler : exn -> option (M A)) : M A :=
  fun self =>
    match body self with
    | (self', Raise e) =>
        match handler e with
        | Some h => h self'
        | None => (self', Raise e)
        end
    | r => r
    end.

(** A function body: its [return] statement is the value of the call. *)
Definition def (body : M FlowResult) : M FlowResult :=
  fun self =>
    match body self with
    | (self', Return r) => (self', Val r)
    | r => r
    end.

(** Modelled from the spec: the host framework's flow manager, which
    runs a step of a handler; the sources have the handlers only.  A
    step that ends by the framework's abort exception is the abort
    outcome with the exception's reason ("aborts as already-configured");
    any other exception is a failed step. *)
Definition run_step (step : M FlowResult) (self : Self) : exn + FlowResult :=
  match step self with
  | (_, Val r) => inr r
  | (_, Return r) => inr r
  | (_, Raise (AbortFlow reason)) => inr (Abort reason)
  | (_, Raise e) => inl e
  end.
End Monad.
Arguments M : clear implicits.

Declare Scope flow_scope.
Delimit Scope flow_scope with flow.
Notation "x <- m ;; k" := (bind m (fun x => k))
  (at level 100, m at next level, right associativity) : flow_scope.
Notation "m ;; k" := (bind m (fun _ => k))
  (at level 100, right associativity) : flow_scope.

End Flow.

(* ===================================================================== *)
(** * Part IV: the Songpal configuration flow                             *)
(* ===================================================================== *)

Module Songpal.
Import Py Urllib Flow.
Local Open Scope flow_scope.

(** ** [const.py] *)
Definition DOMAIN : string := "songpal".
Definition SET_SOUND_SETTING : string := "set_sound_setting".
Definition CONF_ENDPOINT : string := "endpoint".
Definition CONF_ON_ACTION : string := "turn_on_action".
Definition CONF_WOL : string := "wake_on_lan".
Definition ERROR_REQUEST_RETRY : N := 40000%N.

(** ** Constants imported from the host framework *)

(** [homeassistant.const]. *)
Definition CONF_HOST : string := "host".
Definition CONF_NAME : string := "name".

(** [homeassistant.config_entries]: a flow's source is the name of the
    step it starts at (spec, section 6). *)
Definition SOURCE_IMPORT : string := "import".
Definition SOURCE_SSDP : string := "ssdp".
Definition SOURCE_USER : string := "user".

(** ** The collaborators of the flow *)

(** What [device.get_interface_information()] returns. *)
Record InterfaceInfo : Type := { modelName : string }.

(** An entry of the framework's registry. *)
Record ConfigEntry : Type := mkConfigEntry {
  unique_id : option string;
  data : gmap string pyval
}.

(** Everything a step reads from outside the flow object: the URL
    library, the device behind an endpoint (the vendor library's
    [Device(endpoint)] with its two requests, each of which returns or
    raises), the entries of the registry and the script entities of the
    host. *)
Record World : Type := mkWorld {
  w_urlparse : string -> exn + ParseResult;
  w_geturl : ParseResult -> string;
  w_hostname : ParseResult -> option string;
  get_supported_methods : string -> exn + unit;
  get_interface_information : string -> exn + InterfaceInfo;
  _async_current_entries : list ConfigEntry;
  async_entity_ids_script : list string
}.

(** The value of [X_ScalarWebAPI_ServiceType]: one service type or a
    list of them. *)
Inductive service_types : Type :=
  | ST_str (s : string)
  | ST_list (l : list string).

(** [x in service_types]. *)
Definition st_in (x : string) (st : service_types) : bool :=
  match st with
  | ST_str s => is_substring x s
  | ST_list l => bool_decide (x ∈ l)
  end.

(** The parts of a discovery payload the flow looks up; a key that is
    absent from its mapping is [None] here.  The location is taken to be
    present. *)
Record ScalarWebAPI_ServiceList : Type := {
  X_ScalarWebAPI_ServiceType : option service_types
}.

Record ScalarWebAPI_DeviceInfo : Type := {
  X_ScalarWebAPI_BaseURL : option string;
  X_ScalarWebAPI_ServiceList : option ScalarWebAPI_ServiceList
}.

Record SsdpServiceInfo : Type := {
  ssdp_location : string;
  ATTR_UPNP_UDN : option string;
  ATTR_UPNP_FRIENDLY_NAME : option string;
  X_ScalarWebAPI_DeviceInfo : option ScalarWebAPI_DeviceInfo
}.

(** [m[k]] on a payload mapping. *)
Definition payload_item {Self A} (k : string) (v : option A) : M Self A :=
  match v with
  | Some a => ret a
  | None => raise (KeyError k)
  end.

Section Parser.
Variable w : World.

(** [_urlparse(endpoint)].  The three [_replace] calls are expression
    statements: each builds a tuple that nothing is bound to. *)
Definition _urlparse (endpoint : string) : exn + ParseResult :=
  match w_urlparse w endpoint with
  | inl e => inl e
  | inr parsed_url =>
      let _ :=
        if negb (truthy (PStr (scheme parsed_url))) then
          let _ := _replace parsed_url f_scheme "http" in
          let _ := _replace parsed_url f_netloc (path parsed_url ++ ":10000") in
          let _ := _replace parsed_url f_path "sony" in
          tt
        else tt in
      inr parsed_url
  end.

End Parser.

Module SongpalConfigFlow.

(** The flow object: its three attributes and the entries of its
    [context] dictionary that the steps use. *)
Record t : Type := mk {
  endpoint : option string;
  host : option string;
  name : option string;
  context_source : string;
  context_unique_id : option string;
  context_title_placeholders : option (gmap string pyval)
}.

(** [__init__], in a flow the framework starts from [source]. *)
Definition __init__ (source : string) : t := mk None None None source None None.

Definition set_endpoint (v : option string) (self : t) : t :=
  mk v (host self) (name self) (context_source self) (context_unique_id self)
     (context_title_placeholders self).
Definition set_host (v : option string) (self : t) : t :=
  mk (endpoint self) v (name self) (context_source self) (context_unique_id self)
     (context_title_placeholders self).
Definition set_name (v : option string) (self : t) : t :=
  mk (endpoint self) (host self) v (context_source self) (context_unique_id self)
     (context_title_placeholders self).
Definition set_unique_id (v : option string) (self : t) : t :=
  mk (endpoint self) (host self) (name self) (context_source self) v
     (context_title_placeholders self).
Definition set_title_placeholders (v : gmap string pyval) (self : t) : t :=
  mk (endpoint self) (host self) (name self) (context_source self)
     (context_unique_id self) (Some v).

Definition CONFIG_SCHEMA : Schema := [(Required CONF_ENDPOINT, v_str)].

(** *** The framework's uniqueness checks *)

(** An entry matches when its data has every item of the dictionary. *)
Definition entry_matches (match_dict : gmap string pyval) (entry : ConfigEntry) : bool :=
  bool_decide (map_Forall (fun k v => data entry !! k = Some v) match_dict).

Section Steps.
Variable w : World.

Definition entries_match (match_dict : gmap string pyval) : bool :=
  existsb (entry_matches match_dict) (_async_current_entries w).

Definition unique_id_configured (uid : string) : bool :=
  existsb (fun entry => bool_decide (unique_id entry = Some uid))
          (_async_current_entries w).

(** Modelled from the spec: the framework's [_async_abort_entries_match],
    of which the sources have the calls only.  Setup "with an endpoint
    matching an already-configured entry aborts as already-configured". *)
Definition _async_abort_entries_match (match_dict : gmap string pyval) : M t unit :=
  if entries_match match_dict
  then raise (AbortFlow "already_configured")
  else ret tt.

(** Modelled from the spec: the framework's [async_set_unique_id], of
    which the sources have the calls only; it records the identifier the
    "uniqueness check (endpoint address or discovery-provided device
    identifier)" is keyed by. *)
Definition async_set_unique_id (uid : option string) : M t unit :=
  self <- get;;
  put (set_unique_id uid self).

(** Modelled from the spec: the framework's
    [_abort_if_unique_id_configured], of which the sources have the calls
    only; an entry that has the recorded identifier is "already
    configured". *)
Definition _abort_if_unique_id_configured : M t unit :=
  self <- get;;
  match context_unique_id self with
  | None => ret tt
  | Some uid =>
      if unique_id_configured uid
      then raise (AbortFlow "already_configured")
      else ret tt
  end.

(** *** The steps *)

(** [self.endpoint or parsed_url.geturl()]. *)
Definition endpoint_or (self_endpoint : option string) (url : string) : string :=
  match self_endpoint with
  | Some e => if truthy (PStr e) then e else url
  | None => url
  end.

(** The body of the [try] statement of [async_step_init], which reads
    the endpoint, the local variable [name] and [self.name]; its value is
    what it leaves in [name]. *)
Definition probe (endpoint : string) (name : pyval) (self_name : option string)
  : exn + pyval :=
  match get_supported_methods w endpoint with
  | inl e => inl e
  | inr _ =>
      let name := or_ name (of_option self_name) in
      match name with
      | PNone =>
          match get_interface_information w endpoint with
          | inl e => inl e
          | inr interface_info => inr (PStr (modelName interface_info))
          end
      | _ => inr name
      end
  end.

(** The [try] statement yields the two locals it assigns, [name] and
    [errors].  After the handler [errors] is not empty and the form is
    shown, so [name] is not read again on that path. *)
Definition async_step_init (user_input : option (gmap string pyval)) : M t FlowResult :=
  def (
    self <- get;;
    (if String.eqb (context_source self) SOURCE_SSDP then
       _async_abort_entries_match {[ CONF_ENDPOINT := of_option (endpoint self) ]};;
       (match user_input with
        | None =>
            return_ (async_show_form "init" None None
                       (Some {[ CONF_NAME := of_option (name self);
                                CONF_HOST := of_option (host self) ]}))
        | Some _ => ret tt
        end);;
       async_set_unique_id (endpoint self);;
       _abort_if_unique_id_configured
     else ret tt);;
    match user_input with
    | None => return_ (async_abort "not_supported")
    | Some user_input =>
        let errors : gmap string string := ∅ in
        let name := dict_get user_input CONF_NAME in
        parsed_url <- lift (_urlparse w (str (dict_get user_input CONF_ENDPOINT)));;
        self <- get;;
        (match host self with
         | None => put (set_host (w_hostname w parsed_url) self)
         | Some _ => ret tt
         end);;
        self <- get;;
        let endpoint := endpoint_or (endpoint self) (w_geturl w parsed_url) in
        name_errors <-
          try_except
            (name <- lift (probe endpoint name (SongpalConfigFlow.name self));;
             ret (name, errors))
            (fun ex =>
               match ex with
               | SongpalException msg => Some (
                   self <- get;;
                   if bool_decide (context_source self ∈ [SOURCE_IMPORT; SOURCE_SSDP])
                   then return_ (async_abort "cannot_connect")
                   else
                     let errors := <[ CONF_ENDPOINT := "Connection failed: " ++ msg ]> errors in
                     let errors := <[ "base" := "cannot_connect" ]> errors in
                     ret (name, errors))
               | _ => None
               end);;
        let '(name, errors) := name_errors in
        if negb (bool_decide (errors = ∅)) then
          return_ (async_show_form "user" (Some CONFIG_SCHEMA) (Some errors) None)
        else
          _async_abort_entries_match {[ CONF_ENDPOINT := PStr endpoint ]};;
          async_set_unique_id (Some endpoint);;
          _abort_if_unique_id_configured;;
          return_ (async_create_entry (str name)
                     {[ CONF_NAME := name; CONF_ENDPOINT := PStr endpoint ]})
    end).

(** The checks of the discovery branch (lines 76 to 88) let a submitted
    form through: the flow is not a discovery flow, or no entry matches
    the discovered endpoint and no entry has it as its unique id. *)
Definition prelude_passes (self : t) : bool :=
  negb (String.eqb (context_source self) SOURCE_SSDP)
  || (negb (entries_match {[ CONF_ENDPOINT := of_option (endpoint self) ]})
      && match endpoint self with
         | None => true
         | Some uid => negb (unique_id_configured uid)
         end).

Definition async_step_user (user_input : option (gmap string pyval)) : M t FlowResult :=
  def (
    match user_input with
    | Some _ => r <- async_step_init user_input;; return_ r
    | None => return_ (async_show_form "user" (Some CONFIG_SCHEMA) None None)
    end).

Definition async_step_ssdp (discovery_info : SsdpServiceInfo) : M t FlowResult :=
  def (
    udn <- payload_item "UDN" (ATTR_UPNP_UDN discovery_info);;
    async_set_unique_id (Some udn);;
    _abort_if_unique_id_configured;;
    friendly_name <- payload_item "friendlyName" (ATTR_UPNP_FRIENDLY_NAME discovery_info);;
    self <- get;; put (set_name (Some friendly_name) self);;
    parsed_url <- lift (w_urlparse w (ssdp_location discovery_info));;
    self <- get;;
    put (set_host (Some (str (of_option (w_hostname w parsed_url)))) self);;
    scalarweb_info <- payload_item "X_ScalarWebAPI_DeviceInfo"
                        (X_ScalarWebAPI_DeviceInfo discovery_info);;
    base_url <- payload_item "X_ScalarWebAPI_BaseURL"
                  (X_ScalarWebAPI_BaseURL scalarweb_info);;
    self <- get;; put (set_endpoint (Some base_url) self);;
    service_list <- payload_item "X_ScalarWebAPI_ServiceList"
                      (X_ScalarWebAPI_ServiceList scalarweb_info);;
    service_types <- payload_item "X_ScalarWebAPI_ServiceType"
                       (X_ScalarWebAPI_ServiceType service_list);;
    if st_in "videoScreen" service_types then
      return_ (async_abort "not_songpal_device")
    else
      self <- get;;
      put (set_title_placeholders
             {[ CONF_NAME := of_option (name self);
                CONF_HOST := of_option (host self) ]} self);;
      r <- async_step_init None;;
      return_ r).

Definition async_step_import (user_input : option (gmap string pyval)) : M t FlowResult :=
  def (r <- async_step_init user_input;; return_ r).

End Steps.
End SongpalConfigFlow.

Module SongpalOptionsFlowHandler.

(** The handler object: the options of the entry it was made for
    ([self.config_entry.options]). *)
Record t : Type := mk {
  config_entry_options : gmap string pyval
}.

(** Modelled from the spec: the framework's
    [add_suggested_values_to_schema], of which the sources have the call
    only (section 6: "schema validation primitives"); every key of the
    schema that has a suggested value carries it. *)
Definition add_suggested_values_to_schema
    (schema : Schema) (suggested : gmap string pyval) : Schema :=
  map (fun '(m, v) =>
         match suggested !! m_key m with
         | Some x => (mkMarker (m_required m) (m_key m) (m_default m) (Some x), v)
         | None => (m, v)
         end) schema.

(** [on_action not in ids]. *)
Definition not_in (on_action : pyval) (ids : list string) : bool :=
  match on_action with
  | PStr s => negb (bool_decide (s ∈ ids))
  | _ => true
  end.

Section Steps.
Variable w : World.

(** The local variable [errors] is bound by the branch that validates
    the submitted form and by nothing else; what the code after the
    branch finds in it is an option. *)
Definition async_step_init (user_input : option (gmap string pyval)) : M t FlowResult :=
  def (
    errors <-
      match user_input with
      | Some user_input =>
          let errors : gmap string string := ∅ in
          name <- dict_item user_input CONF_NAME;;
          on_action <- dict_item user_input CONF_ON_ACTION;;
          let errors :=
            if negb (bool_decide (on_action = PNone))
               && not_in on_action (async_entity_ids_script w)
            then <[ CONF_ON_ACTION := "Script not found." ]> errors
            else errors in
          wol_value <- dict_item user_input CONF_WOL;;
          let wol := truthy wol_value in
          (if bool_decide (errors = ∅) then
             return_ (async_create_entry ""
                        {[ CONF_NAME := name;
                           CONF_ON_ACTION := on_action;
                           CONF_WOL := PBool wol ]})
           else ret tt);;
          ret (Some errors)
      | None => ret None
      end;;
    let options_schema : Schema :=
      [ (Required CONF_NAME, v_str);
        (Optional CONF_ON_ACTION PNone, v_In (async_entity_ids_script w));
        (Optional CONF_WOL (PBool false), v_bool) ] in
    self <- get;;
    let data_schema :=
      add_suggested_values_to_schema options_schema (config_entry_options self) in
    errors <- read_local "errors" errors;;
    return_ (async_show_form "init" (Some data_schema) (Some errors) None)).

End Steps.
End SongpalOptionsFlowHandler.

End Songpal.


(* ===================================================================== *)
(** * Part V: concrete worlds                                             *)
(* ===================================================================== *)

Module Fixtures.
Import Py Urllib Flow Songpal.

Definition soundbar_endpoint : string := "http://192.168.1.2:10000/sony".

Definition soundbar_entry : ConfigEntry :=
  mkConfigEntry (Some soundbar_endpoint)
    {[ CONF_NAME := PStr "HT-XT3"; CONF_ENDPOINT := PStr soundbar_endpoint ]}.

(** A soundbar answers at [soundbar_endpoint]; no other endpoint can be
    reached. *)
Definition soundbar_methods (endpoint : string) : exn + unit :=
  if String.eqb endpoint soundbar_endpoint then inr tt
  else inl (SongpalException "connection refused").

Definition soundbar_info (endpoint : string) : exn + InterfaceInfo :=
  if String.eqb endpoint soundbar_endpoint then inr {| modelName := "HT-XT3" |}
  else inl (SongpalException "connection refused").

(** The soundbar is on the network and nothing is configured yet. *)
Definition fresh_home : World :=
  mkWorld urlparse geturl hostname soundbar_methods soundbar_info
          [] ["script.tv_on"].

(** The soundbar is on the network and has its entry. *)
Definition configured_home : World :=
  mkWorld urlparse geturl hostname soundbar_methods soundbar_info
          [soundbar_entry] ["script.tv_on"].

(** The soundbar has its entry and is switched off. *)
Definition unplugged_home : World :=
  mkWorld urlparse geturl hostname
          (fun _ => inl (SongpalException "connection refused"))
          (fun _ => inl (SongpalException "connection refused"))
          [soundbar_entry] ["script.tv_on"].

(** An entry whose unique id is the device identifier of a television. *)
Definition tv_udn : string := "uuid:00000000-0000-1010-8000-5453594f4e54".

Definition tv_entry : ConfigEntry :=
  mkConfigEntry (Some tv_udn)
    {[ CONF_NAME := PStr "KD-55"; CONF_ENDPOINT := PStr "http://192.168.1.7/sony" ]}.

Definition tv_home : World :=
  mkWorld urlparse geturl hostname soundbar_methods soundbar_info
          [tv_entry] [].

(** The discovery payload of that television. *)
Definition tv_payload : SsdpServiceInfo :=
  {| ssdp_location := "http://192.168.1.7:52323/dmr.xml";
     ATTR_UPNP_UDN := Some tv_udn;
     ATTR_UPNP_FRIENDLY_NAME := Some "KD-55";
     X_ScalarWebAPI_DeviceInfo := Some
       {| X_ScalarWebAPI_BaseURL := Some "http://192.168.1.7/sony";
          X_ScalarWebAPI_ServiceList := Some
            {| X_ScalarWebAPI_ServiceType :=
                 Some (ST_list ["guide"; "system"; "videoScreen"; "avContent"]) |} |} |}.

End Fixtures.

Module DiscoveryFixtures.
Import Py Urllib Flow Songpal Fixtures.

Definition soundbar_udn : string := "uuid:00000000-0000-1010-8000-ac9b0a4f1c2e".

(** The discovery payload of the soundbar of [Fixtures]. *)
Definition soundbar_payload : SsdpServiceInfo :=
  {| ssdp_location := "http://192.168.1.2:52323/dmr.xml";
     ATTR_UPNP_UDN := Some soundbar_udn;
     ATTR_UPNP_FRIENDLY_NAME := Some "Living room bar";
     X_ScalarWebAPI_DeviceInfo := Some
       {| X_ScalarWebAPI_BaseURL := Some soundbar_endpoint;
          X_ScalarWebAPI_ServiceList := Some
            {| X_ScalarWebAPI_ServiceType :=
                 Some (ST_list ["guide"; "system"; "audio"; "avContent"]) |} |} |}.

(** A payload that has no ScalarWebAPI device information. *)
Definition plain_upnp_payload : SsdpServiceInfo :=
  {| ssdp_location := "http://192.168.1.30:1400/desc.xml";
     ATTR_UPNP_UDN := Some "uuid:5f9ec1b3-ed59-1900-4530-00a0deb2e3a1";
     ATTR_UPNP_FRIENDLY_NAME := Some "Kitchen speaker";
     X_ScalarWebAPI_DeviceInfo := None |}.

(** The soundbar answers to the first request only with an error of the
    transport, which is not the vendor library's exception. *)
Definition broken_library_home : World :=
  mkWorld urlparse geturl hostname
          (fun _ => inl (ValueError "not a JSON document"))
          soundbar_info [] ["script.tv_on"].

End DiscoveryFixtures.

(* ===================================================================== *)
(** * Part VI: properties of the sensor table                             *)
(* ===================================================================== *)

Module GrowattProps.
Import Growatt.

Lemma storage_keys_NoDup : NoDup (key <$> STORAGE_SENSOR_TYPES).
Proof. apply (bool_decide_unpack _). vm_compute. reflexivity. Qed.

(** C4. The table has 27 descriptors, and two descriptors at different
    positions of [STORAGE_SENSOR_TYPES] never have the same [key]. *)
Theorem storage_keys_pairwise_unique :
  length STORAGE_SENSOR_TYPES = 27 /\
  forall (i j : nat) (d1 d2 : GrowattSensorEntityDescription),
    STORAGE_SENSOR_TYPES !! i = Some d1 ->
    STORAGE_SENSOR_TYPES !! j = Some d2 ->
    i <> j -> key d1 <> key d2.
Proof.
  split; [reflexivity |].
  intros i j d1 d2 Hi Hj Hne Heq. apply Hne.
  pose proof storage_keys_NoDup as Hnd.
  rewrite NoDup_alt in Hnd. apply (Hnd i j (key d1)).
  - rewrite list_lookup_fmap, Hi. reflexivity.
  - rewrite list_lookup_fmap, Hj, Heq. reflexivity.
Qed.

Lemma storage_keys_pairwise_unique_witness :
  "storage_storage_production_today" <> "storage_load_percentage".
Proof.
  apply (proj2 storage_keys_pairwise_unique 0 26
           (Description "storage_storage_production_today" "Storage production today"
              "eBatDisChargeToday" (Some ENERGY_KILO_WATT_HOUR) (Some ENERGY) None None)
           (Description "storage_load_percentage" "Load percentage"
              "loadPercent" (Some PERCENTAGE) (Some BATTERY) None (Some 2))).
  - reflexivity.
  - reflexivity.
  - lia.
Defined.

(** On the energy descriptors the telemetry field and the key tell the
    same kind. *)
Lemma storage_kind_by_key :
  forall d : GrowattSensorEntityDescription,
    In d STORAGE_SENSOR_TYPES ->
    is_energy d = true ->
    is_lifetime_key d = is_lifetime d /\ is_daily_key d = is_daily d.
Proof.
  intros d Hin Hunit.
  assert (Hall : forallb (fun d => negb (is_energy d)
                            || (Bool.eqb (is_lifetime_key d) (is_lifetime d)
                                && Bool.eqb (is_daily_key d) (is_daily d)))
                         STORAGE_SENSOR_TYPES = true) by (vm_compute; reflexivity).
  rewrite forallb_forall in Hall. specialize (Hall d Hin).
  rewrite Hunit in Hall. simpl in Hall.
  apply andb_prop in Hall as [H1 H2].
  split; apply Bool.eqb_prop; assumption.
Qed.

Lemma storage_energy_rule : forallb energy_rule STORAGE_SENSOR_TYPES = true.
Proof. vm_compute. reflexivity. Qed.

(** C5. A descriptor of [STORAGE_SENSOR_TYPES] measured in kWh maps a
    lifetime counter or a daily counter; when it maps a lifetime counter
    its [state_class] is [TOTAL], and when it maps a daily counter it
    declares no [state_class]. *)
Theorem storage_energy_state_class :
  forall d : GrowattSensorEntityDescription,
    In d STORAGE_SENSOR_TYPES ->
    native_unit_of_measurement d = Some ENERGY_KILO_WATT_HOUR ->
    (is_lifetime d = true \/ is_daily d = true)
    /\ (is_lifetime d = true -> state_class d = Some TOTAL)
    /\ (is_daily d = true -> state_class d = None).
Proof.
  intros d Hin Hunit.
  pose proof storage_energy_rule as Hall.
  rewrite forallb_forall in Hall. specialize (Hall d Hin).
  unfold energy_rule, is_energy in Hall.
  rewrite (bool_decide_eq_true_2 _ Hunit) in Hall. simpl in Hall.
  apply andb_prop in Hall as [Hall Hday]. apply andb_prop in Hall as [Hkind Hlife].
  split; [| split].
  - apply orb_prop in Hkind. exact Hkind.
  - intros Hl. rewrite Hl in Hlife. simpl in Hlife.
    apply bool_decide_eq_true_1 in Hlife. exact Hlife.
  - intros Hd. rewrite Hd in Hday. simpl in Hday.
    apply bool_decide_eq_true_1 in Hday. exact Hday.
Qed.

Lemma storage_energy_state_class_witness :
  state_class (Description "storage_import_from_grid_total" "Import from grid total"
                 "eToUserTotal" (Some ENERGY_KILO_WATT_HOUR) (Some ENERGY) (Some TOTAL) None)
  = Some TOTAL.
Proof.
  apply (storage_energy_state_class
           (Description "storage_import_from_grid_total" "Import from grid total"
              "eToUserTotal" (Some ENERGY_KILO_WATT_HOUR) (Some ENERGY) (Some TOTAL) None)).
  - do 14 right. left. reflexivity.
  - reflexivity.
  - reflexivity.
Defined.

End GrowattProps.

(* ===================================================================== *)
(** * Part VII: properties of the endpoint parser                         *)
(* ===================================================================== *)

Module ParserProps.
Import Py Urllib Flow Songpal Fixtures.

(** C9. For every library parser and every endpoint, [_urlparse] returns
    (or raises) exactly what [urlparse] does on that endpoint: the branch
    for an endpoint without a scheme changes nothing. *)
Theorem urlparse_wrapper_eq_urlparse :
  forall (w : World) (endpoint : string),
    _urlparse w endpoint = w_urlparse w endpoint.
Proof.
  intros w endpoint. unfold _urlparse.
  destruct (w_urlparse w endpoint) as [e | parsed_url]; reflexivity.
Qed.

(** C1, as the code behaves.  When the library parser finds no scheme in
    an endpoint, [_urlparse] returns the library's result as it is: the
    scheme stays empty (it is not "http"), and netloc and path are the
    library's, not the host with port 10000 and "sony". *)
Theorem urlparse_wrapper_schemeless_not_normalized :
  forall (w : World) (endpoint : string) (parsed_url : ParseResult),
    w_urlparse w endpoint = inr parsed_url ->
    scheme parsed_url = "" ->
    _urlparse w endpoint = inr parsed_url
    /\ scheme parsed_url <> "http".
Proof.
  intros w endpoint parsed_url Hparse Hscheme.
  split.
  - unfold _urlparse. rewrite Hparse. reflexivity.
  - rewrite Hscheme. discriminate.
Qed.

Lemma urlparse_wrapper_schemeless_not_normalized_witness :
  _urlparse fresh_home "192.168.1.2"
    = inr (mkParseResult "" "" "192.168.1.2" "" "" "")
  /\ scheme (mkParseResult "" "" "192.168.1.2" "" "" "") <> "http".
Proof.
  apply (urlparse_wrapper_schemeless_not_normalized fresh_home "192.168.1.2").
  - reflexivity.
  - reflexivity.
Defined.

End ParserProps.

(* ===================================================================== *)
(** * Part VIII: properties of the configuration flow                     *)
(* ===================================================================== *)

Module ConfigFlowProps.
Import Py Urllib Flow Songpal Fixtures.
Import SongpalConfigFlow.

Ltac flow_unfold :=
  cbv [bind ret get put lift def return_ raise try_except
       async_set_unique_id _abort_if_unique_id_configured
       _async_abort_entries_match].

Ltac flow_reduce :=
  cbv beta iota zeta;
  cbn [endpoint host name context_source context_unique_id
       context_title_placeholders set_unique_id set_host set_name
       set_endpoint set_title_placeholders fst snd].

(* The part of [async_step_init] from the probe on, by cases on the
   probe and the two uniqueness checks. *)
Ltac init_probe Hempty Hfull :=
  flow_reduce;
  match goal with |- context [probe ?w ?ep ?nm ?sn] =>
    destruct (probe w ep nm sn) as [[reason | msg | var | k | msg] | name1] end;
  flow_reduce;
  try (eexists; reflexivity);
  [ match goal with |- context [bool_decide (?src ∈ ?l)] =>
      destruct (bool_decide (src ∈ l)) end;
    flow_reduce; [eexists; reflexivity |];
    rewrite Hfull; flow_reduce; cbn [negb]; eexists; reflexivity
  | rewrite Hempty; cbn [negb]; flow_reduce;
    match goal with |- context [entries_match ?w ?d] =>
      destruct (entries_match w d) end;
    flow_reduce; cbn [orb]; [eexists; reflexivity |];
    match goal with |- context [unique_id_configured ?w ?d] =>
      destruct (unique_id_configured w d) end;
    flow_reduce; eexists; reflexivity ].

(* The part of [async_step_init] after the discovery branch. *)
Ltac init_tail Hempty Hfull :=
  flow_reduce;
  match goal with |- context [match ?h with Some _ => _ | None => _ end] =>
    is_var h; destruct h end;
  init_probe Hempty Hfull.

Section Init.
Variable w : World.

Lemma init_submitted (self : t) (user_input : gmap string pyval) (parsed_url : ParseResult) :
  prelude_passes w self = true ->
  w_urlparse w (str (dict_get user_input CONF_ENDPOINT)) = inr parsed_url ->
  exists self',
    async_step_init w (Some user_input) self =
    (self',
     let endpoint := endpoint_or (endpoint self) (w_geturl w parsed_url) in
     match probe w endpoint (dict_get user_input CONF_NAME) (name self) with
     | inl (SongpalException msg) =>
         if bool_decide (context_source self ∈ [SOURCE_IMPORT; SOURCE_SSDP])
         then Val (Abort "cannot_connect")
         else Val (Form "user" (Some CONFIG_SCHEMA)
                     (Some (<[ "base" := "cannot_connect" ]>
                              (<[ CONF_ENDPOINT := "Connection failed: " ++ msg ]> ∅)))
                     None)
     | inl e => Raise e
     | inr name =>
         if entries_match w {[ CONF_ENDPOINT := PStr endpoint ]}
            || unique_id_configured w endpoint
         then Raise (AbortFlow "already_configured")
         else Val (CreateEntry (str name)
                     {[ CONF_NAME := name; CONF_ENDPOINT := PStr endpoint ]})
     end).
Proof.
  intros Hpre Hparse. destruct self as [e h n src uid tp].
  unfold prelude_passes in Hpre. cbn [context_source endpoint] in Hpre.
  unfold async_step_init. flow_unfold. unfold _urlparse. rewrite Hparse.
  flow_reduce.
  assert (Hempty : bool_decide ((∅ : gmap string string) = ∅) = true)
    by (apply bool_decide_eq_true_2; reflexivity).
  assert (Hfull : forall msg : string,
             bool_decide (<[ "base" := "cannot_connect" ]>
                            (<[ CONF_ENDPOINT := "Connection failed: " ++ msg ]>
                               (∅ : gmap string string)) = ∅) = false)
    by (intros msg; apply bool_decide_eq_false_2, insert_non_empty).
  destruct (src =? SOURCE_SSDP) eqn:Hsrc; cbn [negb orb andb] in Hpre.
  - apply andb_prop in Hpre as [Hm Hu]. apply negb_true_iff in Hm. rewrite Hm.
    destruct e as [uid0 |].
    + apply negb_true_iff in Hu. rewrite Hu. init_tail Hempty Hfull.
    + init_tail Hempty Hfull.
  - init_tail Hempty Hfull.
Qed.

Lemma init_prelude_aborts (self : t) (user_input : gmap string pyval) :
  prelude_passes w self = false ->
  exists self',
    async_step_init w (Some user_input) self
    = (self', Raise (AbortFlow "already_configured")).
Proof.
  intros Hpre. destruct self as [e h n src uid tp].
  unfold prelude_passes in Hpre. cbn [context_source endpoint] in Hpre.
  unfold async_step_init. flow_unfold. flow_reduce.
  destruct (src =? SOURCE_SSDP); cbn [negb orb andb] in Hpre; [| discriminate].
  destruct (entries_match w {[CONF_ENDPOINT := of_option e]});
    cbn [negb andb] in Hpre; flow_reduce; [eexists; reflexivity |].
  destruct e as [uid0 |]; [| discriminate].
  apply negb_false_iff in Hpre. rewrite Hpre. flow_reduce.
  eexists; reflexivity.
Qed.

Lemma entries_match_endpoint (endpoint : pyval) (entry : ConfigEntry) :
  In entry (_async_current_entries w) ->
  data entry !! CONF_ENDPOINT = Some endpoint ->
  entries_match w {[ CONF_ENDPOINT := endpoint ]} = true.
Proof.
  intros Hin Hdata. unfold entries_match. apply existsb_exists.
  exists entry. split; [exact Hin |].
  unfold entry_matches. apply bool_decide_eq_true_2.
  apply map_Forall_singleton. exact Hdata.
Qed.

(** C10. In a flow whose source is not ssdp, the init step called
    without user input returns the abort result [not_supported], and so
    does the import step, which hands its argument to the init step; the
    flow object is left as it was. *)
Theorem init_without_input_not_supported :
  forall self : t,
    context_source self <> SOURCE_SSDP ->
    async_step_init w None self = (self, Val (Abort "not_supported"))
    /\ async_step_import w None self = (self, Val (Abort "not_supported")).
Proof.
  intros self Hsrc.
  assert (Hinit : async_step_init w None self = (self, Val (Abort "not_supported"))).
  { unfold async_step_init. flow_unfold.
    destruct (String.eqb_spec (context_source self) SOURCE_SSDP) as [Heq | _];
      [contradiction | reflexivity]. }
  split; [exact Hinit |].
  unfold async_step_import. flow_unfold. rewrite Hinit. reflexivity.
Qed.

(** C3. When the checks before the probe let the submitted form through
    and the probe of the resolved endpoint raises [SongpalException], the
    init step returns a result: in an ssdp or import flow the abort
    result [cannot_connect]; in a user flow the form of step "user" with
    the schema, whose errors are the message on the endpoint field and
    [cannot_connect] on "base".  In no case is it a create-entry result. *)
Theorem init_probe_failure :
  forall (self : t) (user_input : gmap string pyval)
         (parsed_url : ParseResult) (msg : string),
    prelude_passes w self = true ->
    w_urlparse w (str (dict_get user_input CONF_ENDPOINT)) = inr parsed_url ->
    probe w (endpoint_or (endpoint self) (w_geturl w parsed_url))
          (dict_get user_input CONF_NAME) (name self)
      = inl (SongpalException msg) ->
    exists (self' : t) (result : FlowResult),
      async_step_init w (Some user_input) self = (self', Val result)
      /\ (context_source self = SOURCE_SSDP \/ context_source self = SOURCE_IMPORT ->
          result = Abort "cannot_connect")
      /\ (context_source self = SOURCE_USER ->
          result = Form "user" (Some CONFIG_SCHEMA)
                     (Some {[ "base" := "cannot_connect";
                              CONF_ENDPOINT := "Connection failed: " ++ msg ]})
                     None)
      /\ (forall title data, result <> CreateEntry title data).
Proof.
  intros self user_input parsed_url msg Hpre Hparse Hprobe.
  destruct (init_submitted self user_input parsed_url Hpre Hparse) as [self' Hstep].
  cbv zeta in Hstep. rewrite Hprobe in Hstep.
  exists self'.
  destruct (bool_decide (context_source self ∈ [SOURCE_IMPORT; SOURCE_SSDP])) eqn:Hsrc.
  - eexists. split; [exact Hstep |]. split; [reflexivity |]. split; [| discriminate].
    intros Huser. apply bool_decide_eq_true_1 in Hsrc. rewrite Huser in Hsrc.
    apply list_elem_of_In in Hsrc. simpl in Hsrc.
    destruct Hsrc as [H | [H | []]]; discriminate H.
  - eexists. split; [exact Hstep |]. split; [| split; [reflexivity | discriminate]].
    intros Hauto. apply bool_decide_eq_false_1 in Hsrc. exfalso. apply Hsrc.
    apply list_elem_of_In. simpl. destruct Hauto as [H | H]; rewrite H; tauto.
Qed.

(** C7. When the probe of the resolved endpoint succeeds and neither the
    submitted form nor discovery supplied a name, every entry the init
    step creates has the device's model name as its title and as its
    stored name; and the step does create that entry when no configured
    entry has the endpoint. *)
Theorem init_entry_named_after_model :
  forall (self : t) (user_input : gmap string pyval)
         (parsed_url : ParseResult) (interface_info : InterfaceInfo),
    truthy (dict_get user_input CONF_NAME) = false ->
    name self = None ->
    prelude_passes w self = true ->
    w_urlparse w (str (dict_get user_input CONF_ENDPOINT)) = inr parsed_url ->
    get_supported_methods w (endpoint_or (endpoint self) (w_geturl w parsed_url))
      = inr tt ->
    get_interface_information w (endpoint_or (endpoint self) (w_geturl w parsed_url))
      = inr interface_info ->
    (forall (self' : t) (title : string) (data : gmap string pyval),
        async_step_init w (Some user_input) self = (self', Val (CreateEntry title data)) ->
        title = modelName interface_info
        /\ data !! CONF_NAME = Some (PStr (modelName interface_info)))
    /\ (entries_match w {[ CONF_ENDPOINT :=
                            PStr (endpoint_or (endpoint self) (w_geturl w parsed_url)) ]}
        = false ->
        unique_id_configured w (endpoint_or (endpoint self) (w_geturl w parsed_url))
        = false ->
        exists self' : t,
          async_step_init w (Some user_input) self
          = (self', Val (CreateEntry (modelName interface_info)
                           {[ CONF_NAME := PStr (modelName interface_info);
                              CONF_ENDPOINT :=
                                PStr (endpoint_or (endpoint self)
                                                  (w_geturl w parsed_url)) ]}))).
Proof.
  intros self user_input parsed_url interface_info Hui Hname Hpre Hparse Hmeth Hinfo.
  destruct (init_submitted self user_input parsed_url Hpre Hparse) as [self1 Hstep].
  cbv zeta in Hstep.
  assert (Hprobe : probe w (endpoint_or (endpoint self) (w_geturl w parsed_url))
                     (dict_get user_input CONF_NAME) (name self)
                   = inr (PStr (modelName interface_info))).
  { unfold probe. rewrite Hmeth, Hname. unfold or_. rewrite Hui.
    cbn [of_option]. rewrite Hinfo. reflexivity. }
  rewrite Hprobe in Hstep. cbn [str] in Hstep.
  split.
  - intros self' title data Hcreate. rewrite Hstep in Hcreate.
    destruct (entries_match w _ || unique_id_configured w _); [discriminate |].
    injection Hcreate as _ <- <-. split; [reflexivity |].
    apply lookup_insert_eq.
  - intros Hm Hu. rewrite Hm, Hu in Hstep. exists self1. exact Hstep.
Qed.

(** C2, as the code behaves.  When the submitted form resolves to the
    endpoint of a configured entry, the init step creates no entry; it
    ends as the abort [already_configured] when the probe of that
    endpoint succeeds, and, in an ssdp flow whose discovered endpoint is
    that of a configured entry, whatever the input and before any
    probe. *)
Theorem init_endpoint_already_configured :
  forall (self : t) (user_input : gmap string pyval)
         (parsed_url : ParseResult) (entry : ConfigEntry),
    w_urlparse w (str (dict_get user_input CONF_ENDPOINT)) = inr parsed_url ->
    In entry (_async_current_entries w) ->
    data entry !! CONF_ENDPOINT
      = Some (PStr (endpoint_or (endpoint self) (w_geturl w parsed_url))) ->
    (forall title d,
        run_step (async_step_init w (Some user_input)) self <> inr (CreateEntry title d))
    /\ (forall name1,
          probe w (endpoint_or (endpoint self) (w_geturl w parsed_url))
                (dict_get user_input CONF_NAME) (name self) = inr name1 ->
          run_step (async_step_init w (Some user_input)) self
          = inr (Abort "already_configured"))
    /\ (forall (discovered : string) (input : option (gmap string pyval)),
          context_source self = SOURCE_SSDP ->
          endpoint self = Some discovered ->
          data entry !! CONF_ENDPOINT = Some (PStr discovered) ->
          run_step (async_step_init w input) self = inr (Abort "already_configured")).
Proof.
  intros self user_input parsed_url entry Hparse Hin Hdata.
  pose proof (entries_match_endpoint _ entry Hin Hdata) as Hmatch.
  destruct (prelude_passes w self) eqn:Hpre.
  - destruct (init_submitted self user_input parsed_url Hpre Hparse) as [self' Hstep].
    cbv zeta in Hstep. rewrite Hmatch in Hstep. cbn [orb] in Hstep.
    split; [| split].
    + intros title d. unfold run_step. rewrite Hstep.
      destruct (probe w _ _ _) as [[reason | m | var | k | m] | name1];
        try discriminate.
      destruct (bool_decide _); discriminate.
    + intros name1 Hprobe. unfold run_step. rewrite Hstep, Hprobe. reflexivity.
    + intros discovered input Hsrc Hep Hd.
      pose proof (entries_match_endpoint _ entry Hin Hd) as Hm.
      unfold prelude_passes in Hpre. rewrite Hsrc, Hep in Hpre.
      cbn [of_option] in Hpre. rewrite Hm in Hpre. discriminate Hpre.
  - destruct (init_prelude_aborts self user_input Hpre) as [self' Hstep].
    split; [| split].
    + intros title d. unfold run_step. rewrite Hstep. discriminate.
    + intros name1 _. unfold run_step. rewrite Hstep. reflexivity.
    + intros discovered input Hsrc Hep Hd.
      pose proof (entries_match_endpoint _ entry Hin Hd) as Hm.
      unfold run_step, async_step_init. flow_unfold.
      rewrite Hsrc, Hep. cbn [of_option]. rewrite Hm. reflexivity.
Qed.

(** C6, as the code behaves.  For a discovery payload that has the keys
    the step looks up, whose location parses, whose device identifier is
    not the unique id of a configured entry and whose service types
    contain "videoScreen", the ssdp step returns the abort result
    [not_songpal_device]. *)
Theorem ssdp_television_rejected :
  forall (self : t) (discovery_info : SsdpServiceInfo)
         (udn friendly_name base_url : string) (parsed_url : ParseResult)
         (scalarweb_info : ScalarWebAPI_DeviceInfo)
         (service_list : ScalarWebAPI_ServiceList) (types : service_types),
    ATTR_UPNP_UDN discovery_info = Some udn ->
    unique_id_configured w udn = false ->
    ATTR_UPNP_FRIENDLY_NAME discovery_info = Some friendly_name ->
    w_urlparse w (ssdp_location discovery_info) = inr parsed_url ->
    X_ScalarWebAPI_DeviceInfo discovery_info = Some scalarweb_info ->
    X_ScalarWebAPI_BaseURL scalarweb_info = Some base_url ->
    X_ScalarWebAPI_ServiceList scalarweb_info = Some service_list ->
    X_ScalarWebAPI_ServiceType service_list = Some types ->
    st_in "videoScreen" types = true ->
    exists self' : t,
      async_step_ssdp w discovery_info self
      = (self', Val (Abort "not_songpal_device")).
Proof.
  intros self discovery_info udn friendly_name base_url parsed_url scalarweb_info
         service_list types Hudn Hfree Hname Hparse Hinfo Hbase Hlist Htypes Htv.
  unfold async_step_ssdp, payload_item. flow_unfold.
  rewrite Hudn. flow_reduce. destruct self as [e h n src uid tp]. flow_reduce.
  rewrite Hfree. flow_reduce. rewrite Hname. flow_reduce.
  rewrite Hparse. flow_reduce. rewrite Hinfo. flow_reduce.
  rewrite Hbase. flow_reduce. rewrite Hlist. flow_reduce.
  rewrite Htypes. flow_reduce. rewrite Htv. flow_reduce.
  eexists; reflexivity.
Qed.

End Init.

(** C6, as stated, fails: the payload of a television whose device
    identifier is the unique id of a configured entry lists "videoScreen",
    and the ssdp step ends by the uniqueness check, as the abort
    [already_configured]. *)
Lemma ssdp_television_already_configured :
  (exists scalarweb_info service_list l,
      X_ScalarWebAPI_DeviceInfo tv_payload = Some scalarweb_info
      /\ X_ScalarWebAPI_ServiceList scalarweb_info = Some service_list
      /\ X_ScalarWebAPI_ServiceType service_list = Some (ST_list l)
      /\ In "videoScreen" l)
  /\ run_step (async_step_ssdp tv_home tv_payload) (__init__ SOURCE_SSDP)
     = inr (Abort "already_configured")
  /\ run_step (async_step_ssdp tv_home tv_payload) (__init__ SOURCE_SSDP)
     <> inr (Abort "not_songpal_device").
Proof.
  split.
  { do 3 eexists. repeat split; try reflexivity. simpl; tauto. }
  assert (H : run_step (async_step_ssdp tv_home tv_payload) (__init__ SOURCE_SSDP)
              = inr (Abort "already_configured")) by (vm_compute; reflexivity).
  split; [exact H |]. rewrite H. discriminate.
Qed.

Lemma ssdp_television_rejected_witness :
  exists self' : t,
    async_step_ssdp fresh_home tv_payload (__init__ SOURCE_SSDP)
    = (self', Val (Abort "not_songpal_device")).
Proof.
  apply (ssdp_television_rejected fresh_home (__init__ SOURCE_SSDP) tv_payload
           tv_udn "KD-55" "http://192.168.1.7/sony"
           (mkParseResult "http" "192.168.1.7:52323" "/dmr.xml" "" "" "")
           {| X_ScalarWebAPI_BaseURL := Some "http://192.168.1.7/sony";
              X_ScalarWebAPI_ServiceList := Some
                {| X_ScalarWebAPI_ServiceType :=
                     Some (ST_list ["guide"; "system"; "videoScreen"; "avContent"]) |} |}
           {| X_ScalarWebAPI_ServiceType :=
                Some (ST_list ["guide"; "system"; "videoScreen"; "avContent"]) |}
           (ST_list ["guide"; "system"; "videoScreen"; "avContent"]));
    reflexivity.
Defined.

Lemma init_without_input_not_supported_witness :
  async_step_init configured_home None (__init__ SOURCE_IMPORT)
    = (__init__ SOURCE_IMPORT, Val (Abort "not_supported"))
  /\ async_step_import configured_home None (__init__ SOURCE_IMPORT)
    = (__init__ SOURCE_IMPORT, Val (Abort "not_supported")).
Proof.
  apply (init_without_input_not_supported configured_home (__init__ SOURCE_IMPORT)).
  discriminate.
Defined.

Lemma init_probe_failure_witness :
  exists (self' : t) (result : FlowResult),
    async_step_init fresh_home (Some {[ CONF_ENDPOINT := PStr "192.168.1.2" ]})
                    (__init__ SOURCE_USER)
    = (self', Val result)
    /\ (SOURCE_USER = SOURCE_SSDP \/ SOURCE_USER = SOURCE_IMPORT ->
        result = Abort "cannot_connect")
    /\ (SOURCE_USER = SOURCE_USER ->
        result = Form "user" (Some CONFIG_SCHEMA)
                   (Some {[ "base" := "cannot_connect";
                            CONF_ENDPOINT := "Connection failed: " ++ "connection refused" ]})
                   None)
    /\ (forall title data, result <> CreateEntry title data).
Proof.
  apply (init_probe_failure fresh_home (__init__ SOURCE_USER)
           {[ CONF_ENDPOINT := PStr "192.168.1.2" ]}
           (mkParseResult "" "" "192.168.1.2" "" "" "") "connection refused").
  - reflexivity.
  - reflexivity.
  - reflexivity.
Defined.

Lemma init_entry_named_after_model_witness :
  (forall (self' : t) (title : string) (data : gmap string pyval),
      async_step_init fresh_home (Some {[ CONF_ENDPOINT := PStr soundbar_endpoint ]})
                      (__init__ SOURCE_USER)
      = (self', Val (CreateEntry title data)) ->
      title = "HT-XT3" /\ data !! CONF_NAME = Some (PStr "HT-XT3"))
  /\ (entries_match fresh_home {[ CONF_ENDPOINT := PStr soundbar_endpoint ]} = false ->
      unique_id_configured fresh_home soundbar_endpoint = false ->
      exists self' : t,
        async_step_init fresh_home (Some {[ CONF_ENDPOINT := PStr soundbar_endpoint ]})
                        (__init__ SOURCE_USER)
        = (self', Val (CreateEntry "HT-XT3"
                         {[ CONF_NAME := PStr "HT-XT3";
                            CONF_ENDPOINT := PStr soundbar_endpoint ]}))).
Proof.
  apply (init_entry_named_after_model fresh_home (__init__ SOURCE_USER)
           {[ CONF_ENDPOINT := PStr soundbar_endpoint ]}
           (mkParseResult "http" "192.168.1.2:10000" "/sony" "" "" "")
           {| modelName := "HT-XT3" |}).
  - reflexivity.
  - reflexivity.
  - reflexivity.
  - reflexivity.
  - reflexivity.
  - reflexivity.
Defined.

(** C2, as stated, fails: the soundbar has its entry and is switched
    off; a user submits its endpoint, which is the endpoint of the entry,
    and the step shows the form again with the connection error instead
    of aborting as [already_configured]. *)
Lemma init_configured_endpoint_unreachable :
  In soundbar_entry (_async_current_entries unplugged_home)
  /\ data soundbar_entry !! CONF_ENDPOINT = Some (PStr soundbar_endpoint)
  /\ match w_urlparse unplugged_home soundbar_endpoint with
     | inr parsed_url =>
         endpoint_or (endpoint (__init__ SOURCE_USER))
                     (w_geturl unplugged_home parsed_url) = soundbar_endpoint
     | inl _ => False
     end
  /\ run_step (async_step_init unplugged_home
                 (Some {[ CONF_ENDPOINT := PStr soundbar_endpoint ]}))
              (__init__ SOURCE_USER)
     = inr (Form "user" (Some CONFIG_SCHEMA)
              (Some {[ "base" := "cannot_connect";
                       CONF_ENDPOINT := "Connection failed: connection refused" ]})
              None)
  /\ run_step (async_step_init unplugged_home
                 (Some {[ CONF_ENDPOINT := PStr soundbar_endpoint ]}))
              (__init__ SOURCE_USER)
     <> inr (Abort "already_configured").
Proof.
  split; [left; reflexivity |]. split; [reflexivity |]. split; [reflexivity |].
  assert (H : run_step (async_step_init unplugged_home
                          (Some {[ CONF_ENDPOINT := PStr soundbar_endpoint ]}))
                       (__init__ SOURCE_USER)
              = inr (Form "user" (Some CONFIG_SCHEMA)
                       (Some {[ "base" := "cannot_connect";
                                CONF_ENDPOINT := "Connection failed: connection refused" ]})
                       None)) by (vm_compute; reflexivity).
  split; [exact H |]. rewrite H. discriminate.
Qed.

Lemma init_endpoint_already_configured_witness :
  (forall title d,
      run_step (async_step_init configured_home
                  (Some {[ CONF_ENDPOINT := PStr soundbar_endpoint ]}))
               (__init__ SOURCE_USER)
      <> inr (CreateEntry title d))
  /\ run_step (async_step_init configured_home
                 (Some {[ CONF_ENDPOINT := PStr soundbar_endpoint ]}))
              (__init__ SOURCE_USER)
     = inr (Abort "already_configured").
Proof.
  pose proof (init_endpoint_already_configured configured_home (__init__ SOURCE_USER)
                {[ CONF_ENDPOINT := PStr soundbar_endpoint ]}
                (mkParseResult "http" "192.168.1.2:10000" "/sony" "" "" "")
                soundbar_entry) as H.
  destruct H as [Hno [Hab _]].
  - reflexivity.
  - left; reflexivity.
  - reflexivity.
  - split; [exact Hno |]. apply (Hab (PStr "HT-XT3")). reflexivity.
Defined.

End ConfigFlowProps.

(* ===================================================================== *)
(** * Part IX: properties of the options flow                             *)
(* ===================================================================== *)

Module OptionsFlowProps.
Import Py Urllib Flow Songpal.
Import SongpalOptionsFlowHandler.

(** C8. Called without user input, the init step of the options flow
    reaches the call that shows the form with the local variable [errors]
    never assigned: for every world and every handler the step ends by
    [UnboundLocalError] on [errors] and returns no result. *)
Theorem options_init_unbound_errors :
  forall (w : World) (self : t),
    async_step_init w None self = (self, Raise (UnboundLocalError "errors"))
    /\ run_step (async_step_init w None) self = inl (UnboundLocalError "errors").
Proof.
  intros w self.
  assert (H : async_step_init w None self = (self, Raise (UnboundLocalError "errors")))
    by reflexivity.
  split; [exact H |]. unfold run_step. rewrite H. reflexivity.
Qed.

End OptionsFlowProps.

(* ===================================================================== *)
(** * Part X: further properties of the configuration flow                *)
(* ===================================================================== *)

Module ConfigFlowMore.
Import Py Urllib Flow Songpal Fixtures DiscoveryFixtures.
Import SongpalConfigFlow.
Import ConfigFlowProps.

Section Init.
Variable w : World.

(* The init step without input, in every flow. *)
Lemma init_none_cases (self : t) :
  async_step_init w None self =
  (self,
   if String.eqb (context_source self) SOURCE_SSDP then
     if entries_match w {[ CONF_ENDPOINT := of_option (endpoint self) ]}
     then Raise (AbortFlow "already_configured")
     else Val (Form "init" None None
                 (Some {[ CONF_NAME := of_option (name self);
                          CONF_HOST := of_option (host self) ]}))
   else Val (Abort "not_supported")).
Proof.
  unfold async_step_init. flow_unfold.
  destruct (context_source self =? SOURCE_SSDP); [| reflexivity].
  destruct (entries_match w _); reflexivity.
Qed.

(* The init step with input whose endpoint the library cannot parse. *)
Lemma init_parse_error (self : t) (user_input : gmap string pyval) (e : exn) :
  prelude_passes w self = true ->
  w_urlparse w (str (dict_get user_input CONF_ENDPOINT)) = inl e ->
  exists self', async_step_init w (Some user_input) self = (self', Raise e).
Proof.
  intros Hpre Hparse. destruct self as [ep h n src uid tp].
  unfold prelude_passes in Hpre. cbn [context_source endpoint] in Hpre.
  unfold async_step_init. flow_unfold. unfold _urlparse. rewrite Hparse.
  flow_reduce.
  destruct (src =? SOURCE_SSDP) eqn:Hsrc; cbn [negb orb andb] in Hpre.
  - apply andb_prop in Hpre as [Hm Hu]. apply negb_true_iff in Hm. rewrite Hm.
    flow_reduce. destruct ep as [uid0 |].
    + apply negb_true_iff in Hu. rewrite Hu. flow_reduce. eexists; reflexivity.
    + flow_reduce. eexists; reflexivity.
  - flow_reduce. eexists; reflexivity.
Qed.

(* The flow object after the init step has created an entry. *)
Lemma init_creates (self : t) (user_input : gmap string pyval)
      (parsed_url : ParseResult) (name1 : pyval) :
  prelude_passes w self = true ->
  w_urlparse w (str (dict_get user_input CONF_ENDPOINT)) = inr parsed_url ->
  probe w (endpoint_or (endpoint self) (w_geturl w parsed_url))
        (dict_get user_input CONF_NAME) (name self) = inr name1 ->
  entries_match w {[ CONF_ENDPOINT :=
                      PStr (endpoint_or (endpoint self) (w_geturl w parsed_url)) ]}
  = false ->
  unique_id_configured w (endpoint_or (endpoint self) (w_geturl w parsed_url))
  = false ->
  exists self',
    async_step_init w (Some user_input) self
    = (self', Val (CreateEntry (str name1)
                     {[ CONF_NAME := name1;
                        CONF_ENDPOINT :=
                          PStr (endpoint_or (endpoint self) (w_geturl w parsed_url)) ]}))
    /\ context_unique_id self'
       = Some (endpoint_or (endpoint self) (w_geturl w parsed_url))
    /\ endpoint self' = endpoint self
    /\ name self' = name self
    /\ context_source self' = context_source self
    /\ host self' = match host self with
                    | Some h => Some h
                    | None => w_hostname w parsed_url
                    end.
Proof.
  intros Hpre Hparse Hprobe Hm Hu. destruct self as [ep h n src uid tp].
  unfold prelude_passes in Hpre.
  cbn [context_source endpoint host name] in *.
  unfold async_step_init. flow_unfold. unfold _urlparse. rewrite Hparse.
  flow_reduce.
  assert (Hempty : bool_decide ((∅ : gmap string string) = ∅) = true)
    by (apply bool_decide_eq_true_2; reflexivity).
  destruct (src =? SOURCE_SSDP) eqn:Hsrc; cbn [negb orb andb] in Hpre.
  - apply andb_prop in Hpre as [Hm0 Hu0]. apply negb_true_iff in Hm0. rewrite Hm0.
    flow_reduce. destruct ep as [uid0 |].
    + apply negb_true_iff in Hu0. rewrite Hu0. flow_reduce.
      destruct h; flow_reduce; rewrite Hprobe; flow_reduce; rewrite Hempty;
        cbn [negb]; flow_reduce; rewrite Hm; flow_reduce; rewrite Hu; flow_reduce;
        eexists; (split; [reflexivity | repeat split]).
    + flow_reduce.
      destruct h; flow_reduce; rewrite Hprobe; flow_reduce; rewrite Hempty;
        cbn [negb]; flow_reduce; rewrite Hm; flow_reduce; rewrite Hu; flow_reduce;
        eexists; (split; [reflexivity | repeat split]).
  - flow_reduce.
    destruct h; flow_reduce; rewrite Hprobe; flow_reduce; rewrite Hempty;
      cbn [negb]; flow_reduce; rewrite Hm; flow_reduce; rewrite Hu; flow_reduce;
      eexists; (split; [reflexivity | repeat split]).
Qed.

(* No entry has this endpoint in its data. *)
Lemma entries_match_endpoint_false (endpoint : pyval) :
  (forall entry, In entry (_async_current_entries w) ->
                 data entry !! CONF_ENDPOINT <> Some endpoint) ->
  entries_match w {[ CONF_ENDPOINT := endpoint ]} = false.
Proof.
  intros Hnone. unfold entries_match.
  destruct (existsb _ _) eqn:Hex; [| reflexivity].
  apply existsb_exists in Hex as [entry [Hin Hmatch]].
  unfold entry_matches in Hmatch. apply bool_decide_eq_true_1 in Hmatch.
  apply map_Forall_singleton in Hmatch. destruct (Hnone entry Hin Hmatch).
Qed.

(* A step that only returns what another step returns is that step. *)
Lemma def_delegates (body : M t FlowResult) (self : t) :
  def (bind (def body) (fun r => return_ r)) self = def body self.
Proof.
  unfold def, bind, return_.
  destruct (body self) as [self' [a | r | e]]; reflexivity.
Qed.

Lemma import_is_init (user_input : option (gmap string pyval)) (self : t) :
  async_step_import w user_input self = async_step_init w user_input self.
Proof. unfold async_step_import, async_step_init. apply def_delegates. Qed.

Lemma user_is_init (user_input : gmap string pyval) (self : t) :
  async_step_user w (Some user_input) self = async_step_init w (Some user_input) self.
Proof. unfold async_step_user, async_step_init. apply def_delegates. Qed.

(** X1. In a discovery flow the init step without input leaves the flow
    object as it is: it ends as the abort [already_configured] when an
    entry has the discovered endpoint, and otherwise returns the form of
    step "init", without schema or errors, whose placeholders are the
    discovered name and host. *)
Theorem init_discovery_confirmation :
  forall self : t,
    context_source self = SOURCE_SSDP ->
    ((exists entry, In entry (_async_current_entries w)
                    /\ data entry !! CONF_ENDPOINT = Some (of_option (endpoint self))) ->
     async_step_init w None self = (self, Raise (AbortFlow "already_configured"))
     /\ run_step (async_step_init w None) self = inr (Abort "already_configured"))
    /\ ((forall entry, In entry (_async_current_entries w) ->
                       data entry !! CONF_ENDPOINT <> Some (of_option (endpoint self))) ->
        async_step_init w None self
        = (self, Val (Form "init" None None
                        (Some {[ CONF_NAME := of_option (name self);
                                 CONF_HOST := of_option (host self) ]})))).
Proof.
  intros self Hsrc. pose proof (init_none_cases self) as Hstep.
  rewrite Hsrc in Hstep. cbn [String.eqb] in Hstep.
  change (SOURCE_SSDP =? SOURCE_SSDP) with true in Hstep. cbv iota in Hstep.
  split.
  - intros [entry [Hin Hdata]].
    rewrite (entries_match_endpoint w _ entry Hin Hdata) in Hstep.
    split; [exact Hstep |]. unfold run_step. rewrite Hstep. reflexivity.
  - intros Hnone. rewrite (entries_match_endpoint_false _ Hnone) in Hstep.
    exact Hstep.
Qed.


(** X3. When the URL library raises on the submitted endpoint, the user
    step of a flow that is not a discovery flow ends by that exception:
    it returns neither the form with an error nor an abort. *)
Theorem user_endpoint_parse_error_propagates :
  forall (self : t) (user_input : gmap string pyval) (msg : string),
    context_source self <> SOURCE_SSDP ->
    w_urlparse w (str (dict_get user_input CONF_ENDPOINT)) = inl (ValueError msg) ->
    (exists self',
        async_step_user w (Some user_input) self = (self', Raise (ValueError msg)))
    /\ run_step (async_step_user w (Some user_input)) self = inl (ValueError msg).
Proof.
  intros self user_input msg Hsrc Hparse.
  assert (Hpre : prelude_passes w self = true).
  { unfold prelude_passes.
    destruct (String.eqb_spec (context_source self) SOURCE_SSDP); [contradiction | reflexivity]. }
  destruct (init_parse_error self user_input _ Hpre Hparse) as [self' Hstep].
  rewrite <- user_is_init in Hstep.
  split; [exists self'; exact Hstep |].
  unfold run_step. rewrite Hstep. reflexivity.
Qed.

(** X4. The [try] statement of the init step catches the vendor
    library's exception only: when the first request to the device raises
    any other exception, the step ends by that exception, whatever the
    source of the flow. *)
Theorem init_foreign_exception_propagates :
  forall (self : t) (user_input : gmap string pyval)
         (parsed_url : ParseResult) (e : exn),
    prelude_passes w self = true ->
    w_urlparse w (str (dict_get user_input CONF_ENDPOINT)) = inr parsed_url ->
    get_supported_methods w (endpoint_or (endpoint self) (w_geturl w parsed_url))
      = inl e ->
    (forall msg, e <> SongpalException msg) ->
    exists self', async_step_init w (Some user_input) self = (self', Raise e).
Proof.
  intros self user_input parsed_url e Hpre Hparse Hmeth Hforeign.
  destruct (init_submitted w self user_input parsed_url Hpre Hparse) as [self' Hstep].
  cbv zeta in Hstep. unfold probe in Hstep. rewrite Hmeth in Hstep.
  exists self'. rewrite Hstep.
  destruct e as [reason | msg | var | k | msg]; try reflexivity.
  destruct (Hforeign msg). reflexivity.
Qed.

(** X5. Every entry the init step creates is sound: input was
    submitted, its endpoint parsed, the device at the resolved endpoint
    answered the first request, the entry stores that endpoint and the
    name its title shows, no configured entry has that endpoint in its
    data or as its unique id, and the flow's unique id is that endpoint. *)
Theorem init_created_entry_sound :
  forall (self self' : t) (user_input : option (gmap string pyval))
         (title : string) (entry_data : gmap string pyval),
    async_step_init w user_input self = (self', Val (CreateEntry title entry_data)) ->
    exists (submitted : gmap string pyval) (parsed_url : ParseResult) (name1 : pyval),
      user_input = Some submitted
      /\ w_urlparse w (str (dict_get submitted CONF_ENDPOINT)) = inr parsed_url
      /\ get_supported_methods w (endpoint_or (endpoint self) (w_geturl w parsed_url))
         = inr tt
      /\ title = str name1
      /\ entry_data = {[ CONF_NAME := name1;
                         CONF_ENDPOINT :=
                           PStr (endpoint_or (endpoint self) (w_geturl w parsed_url)) ]}
      /\ entries_match w {[ CONF_ENDPOINT :=
                              PStr (endpoint_or (endpoint self) (w_geturl w parsed_url)) ]}
         = false
      /\ unique_id_configured w (endpoint_or (endpoint self) (w_geturl w parsed_url))
         = false
      /\ context_unique_id self'
         = Some (endpoint_or (endpoint self) (w_geturl w parsed_url)).
Proof.
  intros self self' user_input title entry_data Hcreate.
  destruct user_input as [submitted |].
  2:{ rewrite init_none_cases in Hcreate.
      destruct (context_source self =? SOURCE_SSDP); [| discriminate].
      destruct (entries_match w _); discriminate. }
  destruct (prelude_passes w self) eqn:Hpre.
  2:{ destruct (init_prelude_aborts w self submitted Hpre) as [s Hs].
      rewrite Hs in Hcreate. discriminate. }
  destruct (w_urlparse w (str (dict_get submitted CONF_ENDPOINT)))
    as [e | parsed_url] eqn:Hparse.
  { destruct (init_parse_error self submitted e Hpre Hparse) as [s Hs].
    rewrite Hs in Hcreate. discriminate. }
  destruct (init_submitted w self submitted parsed_url Hpre Hparse) as [s Hs].
  cbv zeta in Hs. rewrite Hs in Hcreate.
  destruct (probe w _ _ _) as [[reason | msg | var | k | msg] | name1] eqn:Hprobe;
    try discriminate.
  { destruct (bool_decide _); discriminate. }
  destruct (entries_match w _) eqn:Hm; [discriminate |].
  destruct (unique_id_configured w _) eqn:Hu; [discriminate |].
  cbn [orb] in Hcreate. injection Hcreate as -> <- <-.
  destruct (init_creates self submitted parsed_url name1 Hpre Hparse Hprobe Hm Hu)
    as [s2 [Hs2 [Hid _]]].
  rewrite Hs in Hs2. injection Hs2 as ->.
  exists submitted, parsed_url, name1.
  repeat split; try reflexivity; try assumption.
  unfold probe in Hprobe.
  destruct (get_supported_methods w _) as [e | []]; [discriminate | reflexivity].
Qed.

(** X6. A name submitted with the form wins: when the device answers
    the first request and no configured entry has the resolved endpoint,
    the init step creates the entry with the submitted name as title and
    stored name, whatever discovery found and without asking the device
    for its model name. *)
Theorem init_submitted_name_wins :
  forall (self : t) (user_input : gmap string pyval)
         (parsed_url : ParseResult) (submitted_name : string),
    prelude_passes w self = true ->
    w_urlparse w (str (dict_get user_input CONF_ENDPOINT)) = inr parsed_url ->
    user_input !! CONF_NAME = Some (PStr submitted_name) ->
    submitted_name <> "" ->
    get_supported_methods w (endpoint_or (endpoint self) (w_geturl w parsed_url))
      = inr tt ->
    entries_match w {[ CONF_ENDPOINT :=
                        PStr (endpoint_or (endpoint self) (w_geturl w parsed_url)) ]}
    = false ->
    unique_id_configured w (endpoint_or (endpoint self) (w_geturl w parsed_url))
    = false ->
    exists self',
      async_step_init w (Some user_input) self
      = (self', Val (CreateEntry submitted_name
                       {[ CONF_NAME := PStr submitted_name;
                          CONF_ENDPOINT :=
                            PStr (endpoint_or (endpoint self) (w_geturl w parsed_url)) ]})).
Proof.
  intros self user_input parsed_url submitted_name Hpre Hparse Hname Hne Hmeth Hm Hu.
  assert (Hprobe : probe w (endpoint_or (endpoint self) (w_geturl w parsed_url))
                     (dict_get user_input CONF_NAME) (name self)
                   = inr (PStr submitted_name)).
  { unfold probe, dict_get. rewrite Hmeth, Hname. unfold or_. simpl.
    destruct (String.eqb_spec submitted_name ""); [contradiction | reflexivity]. }
  destruct (init_creates self user_input parsed_url _ Hpre Hparse Hprobe Hm Hu)
    as [self' [Hstep _]].
  exists self'. exact Hstep.
Qed.

(** X7. An import flow never shows a form: whatever the input, the
    import step returns an abort or a create-entry result, or ends by an
    exception. *)
Theorem import_never_shows_form :
  forall (self self' : t) (user_input : option (gmap string pyval))
         (step_id : string) (data_schema : option Schema)
         (errors : option (gmap string string))
         (placeholders : option (gmap string pyval)),
    context_source self = SOURCE_IMPORT ->
    async_step_import w user_input self
    <> (self', Val (Form step_id data_schema errors placeholders)).
Proof.
  intros self self' user_input step_id data_schema errors placeholders Hsrc Hform.
  rewrite import_is_init in Hform.
  assert (Hpre : prelude_passes w self = true).
  { unfold prelude_passes. rewrite Hsrc. reflexivity. }
  destruct user_input as [submitted |].
  2:{ rewrite init_none_cases, Hsrc in Hform. discriminate. }
  destruct (w_urlparse w (str (dict_get submitted CONF_ENDPOINT)))
    as [e | parsed_url] eqn:Hparse.
  { destruct (init_parse_error self submitted e Hpre Hparse) as [s Hs].
    rewrite Hs in Hform. discriminate. }
  destruct (init_submitted w self submitted parsed_url Hpre Hparse) as [s Hs].
  cbv zeta in Hs. rewrite Hs, Hsrc in Hform.
  destruct (probe w _ _ _) as [[reason | msg | var | k | msg] | name1];
    try discriminate.
  destruct (entries_match w _ || unique_id_configured w _); discriminate.
Qed.

(* The ssdp step on the payload of a device that is not a television:
   what it records in the flow object before it runs the init step. *)
Lemma ssdp_reaches_init (self : t) (discovery_info : SsdpServiceInfo)
      (udn friendly_name base_url : string) (parsed_url : ParseResult)
      (scalarweb_info : ScalarWebAPI_DeviceInfo)
      (service_list : ScalarWebAPI_ServiceList) (types : service_types) :
  ATTR_UPNP_UDN discovery_info = Some udn ->
  unique_id_configured w udn = false ->
  ATTR_UPNP_FRIENDLY_NAME discovery_info = Some friendly_name ->
  w_urlparse w (ssdp_location discovery_info) = inr parsed_url ->
  X_ScalarWebAPI_DeviceInfo discovery_info = Some scalarweb_info ->
  X_ScalarWebAPI_BaseURL scalarweb_info = Some base_url ->
  X_ScalarWebAPI_ServiceList scalarweb_info = Some service_list ->
  X_ScalarWebAPI_ServiceType service_list = Some types ->
  st_in "videoScreen" types = false ->
  async_step_ssdp w discovery_info self
  = async_step_init w None
      (mk (Some base_url) (Some (str (of_option (w_hostname w parsed_url))))
          (Some friendly_name) (context_source self) (Some udn)
          (Some {[ CONF_NAME := PStr friendly_name;
                   CONF_HOST := PStr (str (of_option (w_hostname w parsed_url))) ]})).
Proof.
  intros Hudn Hfree Hname Hparse Hinfo Hbase Hlist Htypes Htv.
  transitivity
    (def (bind (async_step_init w None) (fun r => return_ r))
         (mk (Some base_url) (Some (str (of_option (w_hostname w parsed_url))))
             (Some friendly_name) (context_source self) (Some udn)
             (Some {[ CONF_NAME := PStr friendly_name;
                      CONF_HOST := PStr (str (of_option (w_hostname w parsed_url))) ]})));
    [| unfold async_step_init; apply def_delegates].
  unfold async_step_ssdp, payload_item. flow_unfold.
  rewrite Hudn. flow_reduce. destruct self as [e h n src uid tp]. flow_reduce.
  rewrite Hfree. flow_reduce. rewrite Hname. flow_reduce.
  rewrite Hparse. flow_reduce. rewrite Hinfo. flow_reduce.
  rewrite Hbase. flow_reduce. rewrite Hlist. flow_reduce.
  rewrite Htypes. flow_reduce. rewrite Htv. flow_reduce.
  cbn [of_option]. reflexivity.
Qed.

(* The confirmation form of a discovery flow, with the flow object the
   ssdp step leaves. *)
Lemma ssdp_shows_confirmation_state (self : t) (discovery_info : SsdpServiceInfo)
      (udn friendly_name base_url : string) (parsed_url : ParseResult)
      (scalarweb_info : ScalarWebAPI_DeviceInfo)
      (service_list : ScalarWebAPI_ServiceList) (types : service_types) :
  context_source self = SOURCE_SSDP ->
  ATTR_UPNP_UDN discovery_info = Some udn ->
  unique_id_configured w udn = false ->
  ATTR_UPNP_FRIENDLY_NAME discovery_info = Some friendly_name ->
  w_urlparse w (ssdp_location discovery_info) = inr parsed_url ->
  X_ScalarWebAPI_DeviceInfo discovery_info = Some scalarweb_info ->
  X_ScalarWebAPI_BaseURL scalarweb_info = Some base_url ->
  X_ScalarWebAPI_ServiceList scalarweb_info = Some service_list ->
  X_ScalarWebAPI_ServiceType service_list = Some types ->
  st_in "videoScreen" types = false ->
  entries_match w {[ CONF_ENDPOINT := PStr base_url ]} = false ->
  async_step_ssdp w discovery_info self
  = (mk (Some base_url) (Some (str (of_option (w_hostname w parsed_url))))
        (Some friendly_name) SOURCE_SSDP (Some udn)
        (Some {[ CONF_NAME := PStr friendly_name;
                 CONF_HOST := PStr (str (of_option (w_hostname w parsed_url))) ]}),
     Val (Form "init" None None
            (Some {[ CONF_NAME := PStr friendly_name;
                     CONF_HOST := PStr (str (of_option (w_hostname w parsed_url))) ]}))).
Proof.
  intros Hsrc Hudn Hfree Hname Hparse Hinfo Hbase Hlist Htypes Htv Hm.
  rewrite (ssdp_reaches_init self discovery_info udn friendly_name base_url parsed_url
             scalarweb_info service_list types) by assumption.
  rewrite init_none_cases. cbn [context_source endpoint name host of_option].
  rewrite Hsrc. change (SOURCE_SSDP =? SOURCE_SSDP) with true. cbv iota.
  rewrite Hm. reflexivity.
Qed.

(** X8. For the payload of a device that is not a television, whose
    device identifier and base URL no configured entry has, the ssdp step
    of a discovery flow returns the confirmation form of step "init"
    with the friendly name and the host of the location as placeholders,
    and leaves in the flow object the base URL as endpoint, the friendly
    name, the host, the device identifier as unique id and the same
    placeholders for the title. *)
Theorem ssdp_shows_confirmation :
  forall (self : t) (discovery_info : SsdpServiceInfo)
         (udn friendly_name base_url : string) (parsed_url : ParseResult)
         (scalarweb_info : ScalarWebAPI_DeviceInfo)
         (service_list : ScalarWebAPI_ServiceList) (types : service_types),
    context_source self = SOURCE_SSDP ->
    ATTR_UPNP_UDN discovery_info = Some udn ->
    unique_id_configured w udn = false ->
    ATTR_UPNP_FRIENDLY_NAME discovery_info = Some friendly_name ->
    w_urlparse w (ssdp_location discovery_info) = inr parsed_url ->
    X_ScalarWebAPI_DeviceInfo discovery_info = Some scalarweb_info ->
    X_ScalarWebAPI_BaseURL scalarweb_info = Some base_url ->
    X_ScalarWebAPI_ServiceList scalarweb_info = Some service_list ->
    X_ScalarWebAPI_ServiceType service_list = Some types ->
    st_in "videoScreen" types = false ->
    entries_match w {[ CONF_ENDPOINT := PStr base_url ]} = false ->
    async_step_ssdp w discovery_info self
    = (mk (Some base_url) (Some (str (of_option (w_hostname w parsed_url))))
          (Some friendly_name) SOURCE_SSDP (Some udn)
          (Some {[ CONF_NAME := PStr friendly_name;
                   CONF_HOST := PStr (str (of_option (w_hostname w parsed_url))) ]}),
       Val (Form "init" None None
              (Some {[ CONF_NAME := PStr friendly_name;
                       CONF_HOST := PStr (str (of_option (w_hostname w parsed_url))) ]}))).
Proof.
  intros self discovery_info udn friendly_name base_url parsed_url scalarweb_info
         service_list types Hsrc Hudn Hfree Hname Hparse Hinfo Hbase Hlist Htypes Htv Hm.
  apply (ssdp_shows_confirmation_state self discovery_info udn friendly_name base_url
           parsed_url scalarweb_info service_list types); assumption.
Qed.

(** X9. A discovered device whose base URL is the endpoint of a
    configured entry is not offered again: the ssdp step of a discovery
    flow ends as the abort [already_configured], although no entry has
    its device identifier as unique id. *)
Theorem ssdp_known_endpoint_aborts :
  forall (self : t) (discovery_info : SsdpServiceInfo)
         (udn friendly_name base_url : string) (parsed_url : ParseResult)
         (scalarweb_info : ScalarWebAPI_DeviceInfo)
         (service_list : ScalarWebAPI_ServiceList) (types : service_types)
         (entry : ConfigEntry),
    context_source self = SOURCE_SSDP ->
    ATTR_UPNP_UDN discovery_info = Some udn ->
    unique_id_configured w udn = false ->
    ATTR_UPNP_FRIENDLY_NAME discovery_info = Some friendly_name ->
    w_urlparse w (ssdp_location discovery_info) = inr parsed_url ->
    X_ScalarWebAPI_DeviceInfo discovery_info = Some scalarweb_info ->
    X_ScalarWebAPI_BaseURL scalarweb_info = Some base_url ->
    X_ScalarWebAPI_ServiceList scalarweb_info = Some service_list ->
    X_ScalarWebAPI_ServiceType service_list = Some types ->
    st_in "videoScreen" types = false ->
    In entry (_async_current_entries w) ->
    data entry !! CONF_ENDPOINT = Some (PStr base_url) ->
    run_step (async_step_ssdp w discovery_info) self = inr (Abort "already_configured").
Proof.
  intros self discovery_info udn friendly_name base_url parsed_url scalarweb_info
         service_list types entry Hsrc Hudn Hfree Hname Hparse Hinfo Hbase Hlist
         Htypes Htv Hin Hdata.
  unfold run_step.
  rewrite (ssdp_reaches_init self discovery_info udn friendly_name base_url parsed_url
             scalarweb_info service_list types) by assumption.
  rewrite init_none_cases. cbn [context_source endpoint name host of_option].
  rewrite Hsrc. change (SOURCE_SSDP =? SOURCE_SSDP) with true. cbv iota.
  rewrite (entries_match_endpoint w _ entry Hin Hdata). reflexivity.
Qed.


(** X11. A payload that lacks a key the ssdp step looks up makes the
    step end by [KeyError], not by an abort: without a device identifier
    nothing is recorded; without the ScalarWebAPI device information the
    step has already recorded the unique id, the name and the host. *)
Theorem ssdp_missing_key :
  forall (self : t) (discovery_info : SsdpServiceInfo),
    (ATTR_UPNP_UDN discovery_info = None ->
     async_step_ssdp w discovery_info self = (self, Raise (KeyError "UDN")))
    /\ (forall (udn friendly_name : string) (parsed_url : ParseResult),
          ATTR_UPNP_UDN discovery_info = Some udn ->
          unique_id_configured w udn = false ->
          ATTR_UPNP_FRIENDLY_NAME discovery_info = Some friendly_name ->
          w_urlparse w (ssdp_location discovery_info) = inr parsed_url ->
          X_ScalarWebAPI_DeviceInfo discovery_info = None ->
          async_step_ssdp w discovery_info self
          = (mk (endpoint self) (Some (str (of_option (w_hostname w parsed_url))))
                (Some friendly_name) (context_source self) (Some udn)
                (context_title_placeholders self),
             Raise (KeyError "X_ScalarWebAPI_DeviceInfo"))
          /\ run_step (async_step_ssdp w discovery_info) self
             = inl (KeyError "X_ScalarWebAPI_DeviceInfo")).
Proof.
  intros self discovery_info. split.
  - intros Hudn. unfold async_step_ssdp, payload_item. flow_unfold.
    rewrite Hudn. reflexivity.
  - intros udn friendly_name parsed_url Hudn Hfree Hname Hparse Hinfo.
    assert (Hstep : async_step_ssdp w discovery_info self
              = (mk (endpoint self) (Some (str (of_option (w_hostname w parsed_url))))
                    (Some friendly_name) (context_source self) (Some udn)
                    (context_title_placeholders self),
                 Raise (KeyError "X_ScalarWebAPI_DeviceInfo"))).
    { unfold async_step_ssdp, payload_item. flow_unfold.
      rewrite Hudn. flow_reduce. destruct self as [e h n src uid tp]. flow_reduce.
      rewrite Hfree. flow_reduce. rewrite Hname. flow_reduce.
      rewrite Hparse. flow_reduce. rewrite Hinfo. flow_reduce. reflexivity. }
    split; [exact Hstep |]. unfold run_step. rewrite Hstep. reflexivity.
Qed.

End Init.

Lemma init_discovery_confirmation_witness :
  async_step_init fresh_home None
    (mk (Some soundbar_endpoint) (Some "192.168.1.2") (Some "Living room bar")
        SOURCE_SSDP (Some soundbar_udn) None)
  = (mk (Some soundbar_endpoint) (Some "192.168.1.2") (Some "Living room bar")
        SOURCE_SSDP (Some soundbar_udn) None,
     Val (Form "init" None None
            (Some {[ CONF_NAME := PStr "Living room bar";
                     CONF_HOST := PStr "192.168.1.2" ]}))).
Proof.
  apply (init_discovery_confirmation fresh_home
           (mk (Some soundbar_endpoint) (Some "192.168.1.2") (Some "Living room bar")
               SOURCE_SSDP (Some soundbar_udn) None)).
  - reflexivity.
  - intros entry [].
Defined.

Lemma user_endpoint_parse_error_propagates_witness :
  (exists self',
      async_step_user fresh_home (Some {[ CONF_ENDPOINT := PStr "http://[::1/sony" ]})
                      (__init__ SOURCE_USER)
      = (self', Raise (ValueError "Invalid IPv6 URL")))
  /\ run_step (async_step_user fresh_home
                 (Some {[ CONF_ENDPOINT := PStr "http://[::1/sony" ]}))
              (__init__ SOURCE_USER)
     = inl (ValueError "Invalid IPv6 URL").
Proof.
  apply (user_endpoint_parse_error_propagates fresh_home (__init__ SOURCE_USER)
           {[ CONF_ENDPOINT := PStr "http://[::1/sony" ]} "Invalid IPv6 URL").
  - discriminate.
  - reflexivity.
Defined.

Lemma init_foreign_exception_propagates_witness :
  exists self',
    async_step_init broken_library_home
      (Some {[ CONF_ENDPOINT := PStr soundbar_endpoint ]}) (__init__ SOURCE_USER)
    = (self', Raise (ValueError "not a JSON document")).
Proof.
  apply (init_foreign_exception_propagates broken_library_home (__init__ SOURCE_USER)
           {[ CONF_ENDPOINT := PStr soundbar_endpoint ]}
           (mkParseResult "http" "192.168.1.2:10000" "/sony" "" "" "")
           (ValueError "not a JSON document")).
  - reflexivity.
  - reflexivity.
  - reflexivity.
  - intros msg. discriminate.
Defined.

Lemma init_created_entry_sound_witness :
  exists (submitted : gmap string pyval) (parsed_url : ParseResult) (name1 : pyval),
    Some ({[ CONF_ENDPOINT := PStr soundbar_endpoint ]} : gmap string pyval)
    = Some submitted
    /\ w_urlparse fresh_home (str (dict_get submitted CONF_ENDPOINT)) = inr parsed_url
    /\ get_supported_methods fresh_home
         (endpoint_or None (w_geturl fresh_home parsed_url)) = inr tt
    /\ "HT-XT3" = str name1
    /\ ({[ CONF_NAME := PStr "HT-XT3"; CONF_ENDPOINT := PStr soundbar_endpoint ]}
        : gmap string pyval)
       = {[ CONF_NAME := name1;
            CONF_ENDPOINT := PStr (endpoint_or None (w_geturl fresh_home parsed_url)) ]}
    /\ entries_match fresh_home
         {[ CONF_ENDPOINT := PStr (endpoint_or None (w_geturl fresh_home parsed_url)) ]}
       = false
    /\ unique_id_configured fresh_home
         (endpoint_or None (w_geturl fresh_home parsed_url)) = false
    /\ context_unique_id
         (mk None (Some "192.168.1.2") None SOURCE_USER (Some soundbar_endpoint) None)
       = Some (endpoint_or None (w_geturl fresh_home parsed_url)).
Proof.
  apply (init_created_entry_sound fresh_home (__init__ SOURCE_USER)
           (mk None (Some "192.168.1.2") None SOURCE_USER (Some soundbar_endpoint) None)
           (Some {[ CONF_ENDPOINT := PStr soundbar_endpoint ]})
           "HT-XT3"
           {[ CONF_NAME := PStr "HT-XT3"; CONF_ENDPOINT := PStr soundbar_endpoint ]}).
  vm_compute. reflexivity.
Defined.

Lemma init_submitted_name_wins_witness :
  exists self',
    async_step_init fresh_home
      (Some {[ CONF_NAME := PStr "Bar"; CONF_ENDPOINT := PStr soundbar_endpoint ]})
      (__init__ SOURCE_USER)
    = (self', Val (CreateEntry "Bar"
                     {[ CONF_NAME := PStr "Bar";
                        CONF_ENDPOINT := PStr soundbar_endpoint ]})).
Proof.
  apply (init_submitted_name_wins fresh_home (__init__ SOURCE_USER)
           {[ CONF_NAME := PStr "Bar"; CONF_ENDPOINT := PStr soundbar_endpoint ]}
           (mkParseResult "http" "192.168.1.2:10000" "/sony" "" "" "") "Bar").
  - reflexivity.
  - reflexivity.
  - reflexivity.
  - discriminate.
  - reflexivity.
  - reflexivity.
  - reflexivity.
Defined.

Lemma import_never_shows_form_witness :
  async_step_import unplugged_home
    (Some {[ CONF_ENDPOINT := PStr soundbar_endpoint ]}) (__init__ SOURCE_IMPORT)
  <> (__init__ SOURCE_IMPORT,
      Val (Form "user" (Some CONFIG_SCHEMA)
             (Some {[ "base" := "cannot_connect" ]}) None)).
Proof.
  apply (import_never_shows_form unplugged_home (__init__ SOURCE_IMPORT)).
  reflexivity.
Defined.

Lemma ssdp_shows_confirmation_witness :
  async_step_ssdp fresh_home soundbar_payload (__init__ SOURCE_SSDP)
  = (mk (Some soundbar_endpoint) (Some "192.168.1.2") (Some "Living room bar")
        SOURCE_SSDP (Some soundbar_udn)
        (Some {[ CONF_NAME := PStr "Living room bar";
                 CONF_HOST := PStr "192.168.1.2" ]}),
     Val (Form "init" None None
            (Some {[ CONF_NAME := PStr "Living room bar";
                     CONF_HOST := PStr "192.168.1.2" ]}))).
Proof.
  apply (ssdp_shows_confirmation fresh_home (__init__ SOURCE_SSDP) soundbar_payload
           soundbar_udn "Living room bar" soundbar_endpoint
           (mkParseResult "http" "192.168.1.2:52323" "/dmr.xml" "" "" "")
           {| X_ScalarWebAPI_BaseURL := Some soundbar_endpoint;
              X_ScalarWebAPI_ServiceList := Some
                {| X_ScalarWebAPI_ServiceType :=
                     Some (ST_list ["guide"; "system"; "audio"; "avContent"]) |} |}
           {| X_ScalarWebAPI_ServiceType :=
                Some (ST_list ["guide"; "system"; "audio"; "avContent"]) |}
           (ST_list ["guide"; "system"; "audio"; "avContent"]));
    reflexivity.
Defined.

Lemma ssdp_known_endpoint_aborts_witness :
  run_step (async_step_ssdp configured_home soundbar_payload) (__init__ SOURCE_SSDP)
  = inr (Abort "already_configured").
Proof.
  apply (ssdp_known_endpoint_aborts configured_home (__init__ SOURCE_SSDP)
           soundbar_payload
           soundbar_udn "Living room bar" soundbar_endpoint
           (mkParseResult "http" "192.168.1.2:52323" "/dmr.xml" "" "" "")
           {| X_ScalarWebAPI_BaseURL := Some soundbar_endpoint;
              X_ScalarWebAPI_ServiceList := Some
                {| X_ScalarWebAPI_ServiceType :=
                     Some (ST_list ["guide"; "system"; "audio"; "avContent"]) |} |}
           {| X_ScalarWebAPI_ServiceType :=
                Some (ST_list ["guide"; "system"; "audio"; "avContent"]) |}
           (ST_list ["guide"; "system"; "audio"; "avContent"])
           soundbar_entry);
    try reflexivity.
  left; reflexivity.
Defined.


Lemma ssdp_missing_key_witness :
  run_step (async_step_ssdp fresh_home plain_upnp_payload) (__init__ SOURCE_SSDP)
  = inl (KeyError "X_ScalarWebAPI_DeviceInfo").
Proof.
  apply (proj2 (ssdp_missing_key fresh_home (__init__ SOURCE_SSDP) plain_upnp_payload)
           "uuid:5f9ec1b3-ed59-1900-4530-00a0deb2e3a1" "Kitchen speaker"
           (mkParseResult "http" "192.168.1.30:1400" "/desc.xml" "" "" ""));
    reflexivity.
Defined.

End ConfigFlowMore.

(* ===================================================================== *)
(** * Part XI: further properties of the options flow                     *)
(* ===================================================================== *)

Module OptionsFlowMore.
Import Py Urllib Flow Songpal Fixtures.
Import SongpalOptionsFlowHandler.

Ltac options_unfold :=
  unfold async_step_init;
  cbv [bind ret get put lift def return_ raise dict_item read_local].

Section Init.
Variable w : World.

(* The schema of the options form for a handler. *)
Local Abbreviation options_form_schema self :=
  (add_suggested_values_to_schema
     [ (Required CONF_NAME, v_str);
       (Optional CONF_ON_ACTION PNone, v_In (async_entity_ids_script w));
       (Optional CONF_WOL (PBool false), v_bool) ]
     (config_entry_options self)).

(* The init step on a submitted form that has the three keys. *)
Lemma options_submitted (self : t) (user_input : gmap string pyval)
      (name on_action wol : pyval) :
  user_input !! CONF_NAME = Some name ->
  user_input !! CONF_ON_ACTION = Some on_action ->
  user_input !! CONF_WOL = Some wol ->
  async_step_init w (Some user_input) self =
  (self,
   if negb (bool_decide (on_action = PNone))
      && not_in on_action (async_entity_ids_script w)
   then Val (Form "init" (Some (options_form_schema self))
               (Some {[ CONF_ON_ACTION := "Script not found." ]}) None)
   else Val (CreateEntry ""
               {[ CONF_NAME := name;
                  CONF_ON_ACTION := on_action;
                  CONF_WOL := PBool (truthy wol) ]})).
Proof.
  intros Hname Haction Hwol. options_unfold.
  rewrite Hname, Haction, Hwol.
  destruct (negb (bool_decide (on_action = PNone))
            && not_in on_action (async_entity_ids_script w)).
  - rewrite bool_decide_eq_false_2 by apply insert_non_empty. reflexivity.
  - rewrite bool_decide_eq_true_2 by reflexivity. reflexivity.
Qed.

(* The init step on a submitted form that lacks one of the keys. *)
Lemma options_missing (self : t) (user_input : gmap string pyval) :
  (user_input !! CONF_NAME = None ->
   async_step_init w (Some user_input) self = (self, Raise (KeyError CONF_NAME)))
  /\ (is_Some (user_input !! CONF_NAME) ->
      user_input !! CONF_ON_ACTION = None ->
      async_step_init w (Some user_input) self = (self, Raise (KeyError CONF_ON_ACTION)))
  /\ (is_Some (user_input !! CONF_NAME) ->
      is_Some (user_input !! CONF_ON_ACTION) ->
      user_input !! CONF_WOL = None ->
      async_step_init w (Some user_input) self = (self, Raise (KeyError CONF_WOL))).
Proof.
  split; [| split].
  - intros Hname. options_unfold. rewrite Hname. reflexivity.
  - intros [name Hname] Haction. options_unfold. rewrite Hname, Haction. reflexivity.
  - intros [name Hname] [action Haction] Hwol. options_unfold.
    rewrite Hname, Haction, Hwol. reflexivity.
Qed.

(** X12. A submitted options form that has its three keys and whose
    turn-on action is [None] or one of the host's script entities is
    accepted: the step returns the create-entry result with the empty
    title, the name and the action as submitted and the wake-on-lan value
    turned into a boolean, and leaves the handler as it is. *)
Theorem options_valid_input_creates_entry :
  forall (self : t) (user_input : gmap string pyval) (name on_action wol : pyval),
    user_input !! CONF_NAME = Some name ->
    user_input !! CONF_ON_ACTION = Some on_action ->
    user_input !! CONF_WOL = Some wol ->
    (on_action = PNone
     \/ exists script, on_action = PStr script /\ In script (async_entity_ids_script w)) ->
    async_step_init w (Some user_input) self
    = (self, Val (CreateEntry ""
                    {[ CONF_NAME := name;
                       CONF_ON_ACTION := on_action;
                       CONF_WOL := PBool (truthy wol) ]})).
Proof.
  intros self user_input name on_action wol Hname Haction Hwol Hvalid.
  rewrite (options_submitted self user_input name on_action wol Hname Haction Hwol).
  destruct Hvalid as [-> | [script [-> Hin]]].
  - reflexivity.
  - cbn [not_in]. apply list_elem_of_In in Hin.
    rewrite (bool_decide_eq_true_2 _ Hin). reflexivity.
Qed.

(** X13. A submitted options form whose turn-on action is a script the
    host does not have is refused: the step returns the form of step
    "init" again, with the options schema and the error "Script not
    found." on the action field, and creates no entry. *)
Theorem options_unknown_script_refused :
  forall (self : t) (user_input : gmap string pyval) (name wol : pyval)
         (script : string),
    user_input !! CONF_NAME = Some name ->
    user_input !! CONF_ON_ACTION = Some (PStr script) ->
    user_input !! CONF_WOL = Some wol ->
    ~ In script (async_entity_ids_script w) ->
    async_step_init w (Some user_input) self
    = (self, Val (Form "init" (Some (options_form_schema self))
                    (Some {[ CONF_ON_ACTION := "Script not found." ]}) None)).
Proof.
  intros self user_input name wol script Hname Haction Hwol Hnotin.
  rewrite (options_submitted self user_input name (PStr script) wol Hname Haction Hwol).
  cbn [not_in].
  rewrite (bool_decide_eq_false_2 (script ∈ async_entity_ids_script w))
    by (intros Hin; apply Hnotin; apply list_elem_of_In; exact Hin).
  reflexivity.
Qed.

(** X14. A submitted options form that lacks a key makes the step end
    by [KeyError] on the first key it lacks, in the order name, turn-on
    action, wake-on-lan; a missing wake-on-lan key does so even when the
    action is a script the host does not have. *)
Theorem options_missing_key :
  forall (self : t) (user_input : gmap string pyval),
    (user_input !! CONF_NAME = None ->
     run_step (async_step_init w (Some user_input)) self = inl (KeyError "name"))
    /\ (is_Some (user_input !! CONF_NAME) ->
        user_input !! CONF_ON_ACTION = None ->
        run_step (async_step_init w (Some user_input)) self
        = inl (KeyError "turn_on_action"))
    /\ (is_Some (user_input !! CONF_NAME) ->
        is_Some (user_input !! CONF_ON_ACTION) ->
        user_input !! CONF_WOL = None ->
        run_step (async_step_init w (Some user_input)) self
        = inl (KeyError "wake_on_lan")).
Proof.
  intros self user_input.
  destruct (options_missing self user_input) as [H1 [H2 H3]].
  split; [| split].
  - intros Hn. unfold run_step. rewrite (H1 Hn). reflexivity.
  - intros Hn Ha. unfold run_step. rewrite (H2 Hn Ha). reflexivity.
  - intros Hn Ha Hw. unfold run_step. rewrite (H3 Hn Ha Hw). reflexivity.
Qed.

(** X15. Whatever the input, a result of the options init step is
    either the create-entry result of an accepted form, whose action is
    [None] or a script of the host and whose wake-on-lan value is a
    boolean, or the form of step "init" carrying the error "Script not
    found.": the step never shows the options form without that error,
    and never stores a script the host does not have. *)
Theorem options_results :
  forall (self self' : t) (user_input : option (gmap string pyval))
         (result : FlowResult),
    async_step_init w user_input self = (self', Val result) ->
    self' = self
    /\ exists (submitted : gmap string pyval) (name on_action wol : pyval),
         user_input = Some submitted
         /\ submitted !! CONF_NAME = Some name
         /\ submitted !! CONF_ON_ACTION = Some on_action
         /\ submitted !! CONF_WOL = Some wol
         /\ ((result = CreateEntry ""
                         {[ CONF_NAME := name;
                            CONF_ON_ACTION := on_action;
                            CONF_WOL := PBool (truthy wol) ]}
              /\ (on_action = PNone
                  \/ exists script, on_action = PStr script
                                    /\ In script (async_entity_ids_script w)))
             \/ (result = Form "init" (Some (options_form_schema self))
                            (Some {[ CONF_ON_ACTION := "Script not found." ]}) None
                 /\ on_action <> PNone)).
Proof.
  intros self self' user_input result Hstep.
  destruct user_input as [submitted |]; [| discriminate Hstep].
  destruct (submitted !! CONF_NAME) as [name |] eqn:Hname.
  2:{ rewrite (proj1 (options_missing self submitted) Hname) in Hstep. discriminate. }
  destruct (submitted !! CONF_ON_ACTION) as [on_action |] eqn:Haction.
  2:{ rewrite (proj1 (proj2 (options_missing self submitted))) in Hstep;
        [discriminate | rewrite Hname; eauto | exact Haction]. }
  destruct (submitted !! CONF_WOL) as [wol |] eqn:Hwol.
  2:{ rewrite (proj2 (proj2 (options_missing self submitted))) in Hstep;
        [discriminate | rewrite Hname; eauto | rewrite Haction; eauto | exact Hwol]. }
  rewrite (options_submitted self submitted name on_action wol Hname Haction Hwol)
    in Hstep.
  destruct (negb (bool_decide (on_action = PNone))
            && not_in on_action (async_entity_ids_script w)) eqn:Hcond;
    injection Hstep as <- <-; (split; [reflexivity |]);
    exists submitted, name, on_action, wol; repeat split; try assumption.
  - right. split; [reflexivity |].
    apply andb_prop in Hcond as [Hne _]. apply negb_true_iff in Hne.
    apply bool_decide_eq_false_1 in Hne. exact Hne.
  - left. split; [reflexivity |].
    apply andb_false_iff in Hcond as [Hnone | Hin].
    + left. apply negb_false_iff in Hnone.
      apply bool_decide_eq_true_1 in Hnone. exact Hnone.
    + destruct on_action as [| script | b]; cbn [not_in] in Hin; try discriminate.
      right. exists script. split; [reflexivity |].
      apply negb_false_iff in Hin. apply bool_decide_eq_true_1 in Hin.
      apply list_elem_of_In. exact Hin.
Qed.

End Init.

Lemma options_valid_input_creates_entry_witness :
  async_step_init fresh_home
    (Some {[ CONF_NAME := PStr "Bar"; CONF_ON_ACTION := PStr "script.tv_on";
             CONF_WOL := PStr "yes" ]})
    (mk ∅)
  = (mk ∅, Val (CreateEntry ""
                  {[ CONF_NAME := PStr "Bar";
                     CONF_ON_ACTION := PStr "script.tv_on";
                     CONF_WOL := PBool true ]})).
Proof.
  apply (options_valid_input_creates_entry fresh_home (mk ∅)
           {[ CONF_NAME := PStr "Bar"; CONF_ON_ACTION := PStr "script.tv_on";
              CONF_WOL := PStr "yes" ]}
           (PStr "Bar") (PStr "script.tv_on") (PStr "yes")).
  - reflexivity.
  - reflexivity.
  - reflexivity.
  - right. exists "script.tv_on". split; [reflexivity | left; reflexivity].
Defined.

Lemma options_unknown_script_refused_witness :
  async_step_init fresh_home
    (Some {[ CONF_NAME := PStr "Bar"; CONF_ON_ACTION := PStr "script.gone";
             CONF_WOL := PBool false ]})
    (mk {[ CONF_NAME := PStr "Bar" ]})
  = (mk {[ CONF_NAME := PStr "Bar" ]},
     Val (Form "init"
            (Some [ (mkMarker true CONF_NAME None (Some (PStr "Bar")), v_str);
                    (Optional CONF_ON_ACTION PNone, v_In ["script.tv_on"]);
                    (Optional CONF_WOL (PBool false), v_bool) ])
            (Some {[ CONF_ON_ACTION := "Script not found." ]}) None)).
Proof.
  etransitivity.
  - apply (options_unknown_script_refused fresh_home (mk {[ CONF_NAME := PStr "Bar" ]})
             {[ CONF_NAME := PStr "Bar"; CONF_ON_ACTION := PStr "script.gone";
                CONF_WOL := PBool false ]}
             (PStr "Bar") (PBool false) "script.gone").
    + reflexivity.
    + reflexivity.
    + reflexivity.
    + intros [H | []]. discriminate H.
  - vm_compute. reflexivity.
Defined.

Lemma options_missing_key_witness :
  run_step (async_step_init fresh_home
              (Some {[ CONF_NAME := PStr "Bar"; CONF_ON_ACTION := PStr "script.gone" ]}))
           (mk ∅)
  = inl (KeyError "wake_on_lan").
Proof.
  apply (proj2 (proj2 (options_missing_key fresh_home (mk ∅)
                         {[ CONF_NAME := PStr "Bar";
                            CONF_ON_ACTION := PStr "script.gone" ]}))).
  - exists (PStr "Bar"). reflexivity.
  - exists (PStr "script.gone"). reflexivity.
  - reflexivity.
Defined.

Lemma options_results_witness :
  mk ∅ = mk ∅
  /\ exists (submitted : gmap string pyval) (name on_action wol : pyval),
       Some ({[ CONF_NAME := PStr "Bar"; CONF_ON_ACTION := PNone;
                CONF_WOL := PBool true ]} : gmap string pyval) = Some submitted
       /\ submitted !! CONF_NAME = Some name
       /\ submitted !! CONF_ON_ACTION = Some on_action
       /\ submitted !! CONF_WOL = Some wol
       /\ ((CreateEntry "" {[ CONF_NAME := PStr "Bar"; CONF_ON_ACTION := PNone;
                              CONF_WOL := PBool true ]}
            = CreateEntry ""
                {[ CONF_NAME := name; CONF_ON_ACTION := on_action;
                   CONF_WOL := PBool (truthy wol) ]}
            /\ (on_action = PNone
                \/ exists script, on_action = PStr script
                                  /\ In script (async_entity_ids_script fresh_home)))
           \/ (CreateEntry "" {[ CONF_NAME := PStr "Bar"; CONF_ON_ACTION := PNone;
                                 CONF_WOL := PBool true ]}
               = Form "init"
                   (Some (add_suggested_values_to_schema
                            [ (Required CONF_NAME, v_str);
                              (Optional CONF_ON_ACTION PNone,
                               v_In (async_entity_ids_script fresh_home));
                              (Optional CONF_WOL (PBool false), v_bool) ]
                            (config_entry_options (mk ∅))))
                   (Some {[ CONF_ON_ACTION := "Script not found." ]}) None
               /\ on_action <> PNone)).
Proof.
  apply (options_results fresh_home (mk ∅) (mk ∅)
           (Some {[ CONF_NAME := PStr "Bar"; CONF_ON_ACTION := PNone;
                    CONF_WOL := PBool true ]})
           (CreateEntry "" {[ CONF_NAME := PStr "Bar"; CONF_ON_ACTION := PNone;
                              CONF_WOL := PBool true ]})).
  vm_compute. reflexivity.
Defined.

End OptionsFlowMore.

(* ===================================================================== *)
(** * Part XII: further properties of the sensor table                    *)
(* ===================================================================== *)

Module GrowattMore.
Import Growatt.

Lemma storage_api_keys_NoDup : NoDup (api_key <$> STORAGE_SENSOR_TYPES).
Proof. apply (bool_decide_unpack _). vm_compute. reflexivity. Qed.

Lemma storage_names_NoDup : NoDup (name <$> STORAGE_SENSOR_TYPES).
Proof. apply (bool_decide_unpack _). vm_compute. reflexivity. Qed.

(** X16. The table maps telemetry fields one to one: two descriptors at
    different positions never read the same [api_key], and never show
    the same [name]. *)
Theorem storage_api_keys_and_names_unique :
  forall (i j : nat) (d1 d2 : GrowattSensorEntityDescription),
    STORAGE_SENSOR_TYPES !! i = Some d1 ->
    STORAGE_SENSOR_TYPES !! j = Some d2 ->
    i <> j ->
    api_key d1 <> api_key d2 /\ name d1 <> name d2.
Proof.
  intros i j d1 d2 Hi Hj Hne. split; intros Heq; apply Hne.
  - pose proof storage_api_keys_NoDup as Hnd. rewrite NoDup_alt in Hnd.
    apply (Hnd i j (api_key d1)).
    + rewrite list_lookup_fmap, Hi. reflexivity.
    + rewrite list_lookup_fmap, Hj, Heq. reflexivity.
  - pose proof storage_names_NoDup as Hnd. rewrite NoDup_alt in Hnd.
    apply (Hnd i j (name d1)).
    + rewrite list_lookup_fmap, Hi. reflexivity.
    + rewrite list_lookup_fmap, Hj, Heq. reflexivity.
Qed.

Lemma storage_api_keys_and_names_unique_witness :
  "eChargeTotal" <> "eChargeToday" /\ "Lifetime storaged charged" <> "Charge today".
Proof.
  apply (storage_api_keys_and_names_unique 6 11
           (Description "storage_charge_storage_lifetime" "Lifetime storaged charged"
              "eChargeTotal" (Some ENERGY_KILO_WATT_HOUR) (Some ENERGY) (Some TOTAL) None)
           (Description "storage_charge_today" "Charge today"
              "eChargeToday" (Some ENERGY_KILO_WATT_HOUR) (Some ENERGY) None None)).
  - reflexivity.
  - reflexivity.
  - lia.
Defined.

(** X17. Every descriptor of the table has a unit, and the unit fixes
    the device class: kWh goes with [ENERGY], W with [POWER], V with
    [VOLTAGE], A with [CURRENT] and the percentage with [BATTERY], each
    in both directions; the descriptors in Hz and VA have no device
    class. *)
Theorem storage_unit_fixes_device_class :
  forall d : GrowattSensorEntityDescription,
    In d STORAGE_SENSOR_TYPES ->
    native_unit_of_measurement d <> None
    /\ (native_unit_of_measurement d = Some ENERGY_KILO_WATT_HOUR
        <-> device_class d = Some ENERGY)
    /\ (native_unit_of_measurement d = Some POWER_WATT
        <-> device_class d = Some POWER)
    /\ (native_unit_of_measurement d = Some ELECTRIC_POTENTIAL_VOLT
        <-> device_class d = Some VOLTAGE)
    /\ (native_unit_of_measurement d = Some ELECTRIC_CURRENT_AMPERE
        <-> device_class d = Some CURRENT)
    /\ (native_unit_of_measurement d = Some PERCENTAGE
        <-> device_class d = Some BATTERY)
    /\ (native_unit_of_measurement d = Some FREQUENCY_HERTZ
        \/ native_unit_of_measurement d = Some "VA"
        <-> device_class d = None).
Proof.
  intros d Hin.
  assert (Hall : Forall (fun d =>
            native_unit_of_measurement d <> None
            /\ (native_unit_of_measurement d = Some ENERGY_KILO_WATT_HOUR
                <-> device_class d = Some ENERGY)
            /\ (native_unit_of_measurement d = Some POWER_WATT
                <-> device_class d = Some POWER)
            /\ (native_unit_of_measurement d = Some ELECTRIC_POTENTIAL_VOLT
                <-> device_class d = Some VOLTAGE)
            /\ (native_unit_of_measurement d = Some ELECTRIC_CURRENT_AMPERE
                <-> device_class d = Some CURRENT)
            /\ (native_unit_of_measurement d = Some PERCENTAGE
                <-> device_class d = Some BATTERY)
            /\ (native_unit_of_measurement d = Some FREQUENCY_HERTZ
                \/ native_unit_of_measurement d = Some "VA"
                <-> device_class d = None)) STORAGE_SENSOR_TYPES).
  { unfold STORAGE_SENSOR_TYPES.
    repeat (apply Forall_cons; split;
            [cbn; repeat split; try discriminate; try reflexivity;
             try (intros [H | H]; discriminate H); try (intros _; tauto) |]).
    apply Forall_nil. trivial. }
  rewrite Forall_forall in Hall. apply Hall. apply list_elem_of_In. exact Hin.
Qed.

Lemma storage_unit_fixes_device_class_witness :
  device_class (Description "storage_battery_voltage" "Battery voltage"
                  "vBat" (Some ELECTRIC_POTENTIAL_VOLT) (Some VOLTAGE) None (Some 2))
  = Some VOLTAGE.
Proof.
  apply (storage_unit_fixes_device_class
           (Description "storage_battery_voltage" "Battery voltage"
              "vBat" (Some ELECTRIC_POTENTIAL_VOLT) (Some VOLTAGE) None (Some 2))).
  - do 25 right. left. reflexivity.
  - reflexivity.
Defined.

(** X18. The only statistics class the table declares is [TOTAL], and
    only the kWh descriptors of lifetime counters declare one. *)
Theorem storage_state_class_only_on_lifetime_energy :
  forall (d : GrowattSensorEntityDescription) (c : SensorStateClass),
    In d STORAGE_SENSOR_TYPES ->
    state_class d = Some c ->
    c = TOTAL
    /\ native_unit_of_measurement d = Some ENERGY_KILO_WATT_HOUR
    /\ is_lifetime d = true.
Proof.
  intros d c Hin Hclass.
  assert (Hall : forallb (fun d =>
            match state_class d with
            | None => true
            | Some c => bool_decide (c = TOTAL) && is_energy d && is_lifetime d
            end) STORAGE_SENSOR_TYPES = true) by (vm_compute; reflexivity).
  rewrite forallb_forall in Hall. specialize (Hall d Hin).
  rewrite Hclass in Hall.
  apply andb_prop in Hall as [Hall Hlife]. apply andb_prop in Hall as [Htotal Hunit].
  apply bool_decide_eq_true_1 in Htotal.
  unfold is_energy in Hunit. apply bool_decide_eq_true_1 in Hunit.
  auto.
Qed.

Lemma storage_state_class_only_on_lifetime_energy_witness :
  TOTAL = TOTAL
  /\ Some ENERGY_KILO_WATT_HOUR = Some ENERGY_KILO_WATT_HOUR
  /\ is_lifetime (Description "storage_load_consumption_lifetime"
                    "Lifetime load consumption" "eopDischrTotal"
                    (Some ENERGY_KILO_WATT_HOUR) (Some ENERGY) (Some TOTAL) None)
     = true.
Proof.
  apply (storage_state_class_only_on_lifetime_energy
           (Description "storage_load_consumption_lifetime"
              "Lifetime load consumption" "eopDischrTotal"
              (Some ENERGY_KILO_WATT_HOUR) (Some ENERGY) (Some TOTAL) None) TOTAL).
  - do 4 right. left. reflexivity.
  - reflexivity.
Defined.

End GrowattMore.
